(** * login_screen.py: the CAPTCHA core of the login screen

    A shallow embedding of [src/login_screen.py]: the restricted alphabet
    and [generate_captcha_text], [_random_color] and the drawing calls of
    [render_captcha_image], the [CaptchaSession] class ([create],
    [is_valid], [verify]), and the handlers of [LoginApp] ([__init__],
    [_new_captcha], [_autofill_demo], [_on_login]) on the state of the
    window.

    Conventions of the embedding.
    - A Python [str] is a list of Unicode code points; [str.upper] and
      [str.strip] go by the tables of the interpreter, given in full.
    - [time.time()] is an input: every method takes the reading [now] that
      the clock returns inside that call.  Readings are exact rationals.
    - The global [random] generator is a stream of draws, threaded through
      the functions that consume it.
    - Pillow and [hashlib] are outside the repository: the image type, the
      renderer and the digest are parameters of the development.  The
      UTF-8 encoding in front of the digest raises on a surrogate. *)

From Stdlib Require Import List Bool Arith NArith Ascii String QArith Lia Lqa.
Import ListNotations.

Set Implicit Arguments.
Set Default Proof Using "Type".

Close Scope Q_scope.
Open Scope nat_scope.

(** ** Python strings *)

(** A character is its Unicode code point; a [str] is a sequence of
    them. *)
Definition char : Type := N.

Definition str : Type := list char.

(** A literal of the source. *)
Definition py (s : string) : str := map N_of_ascii (list_ascii_of_string s).

(** [ch in s] for a one-character [ch]. *)
Definition char_in (ch : char) (s : str) : bool :=
  existsb (N.eqb ch) s.

(** The upper-case mapping of [str.upper] (CPython 3.11, Unicode 14): every
    character that [upper] changes, with what it becomes.  Some characters
    become more than one (223, the sharp s, becomes SS). *)
Definition UPPER_TABLE : list (char * str) :=
  [
   (97, [65]); (98, [66]); (99, [67]); (100, [68]); (101, [69]);
   (102, [70]); (103, [71]); (104, [72]); (105, [73]); (106, [74]);
   (107, [75]); (108, [76]); (109, [77]); (110, [78]); (111, [79]);
   (112, [80]); (113, [81]); (114, [82]); (115, [83]); (116, [84]);
   (117, [85]); (118, [86]); (119, [87]); (120, [88]); (121, [89]);
   (122, [90]); (181, [924]); (223, [83; 83]); (224, [192]); (225, [193]);
   (226, [194]); (227, [195]); (228, [196]); (229, [197]); (230, [198]);
   (231, [199]); (232, [200]); (233, [201]); (234, [202]); (235, [203]);
   (236, [204]); (237, [205]); (238, [206]); (239, [207]); (240, [208]);
   (241, [209]); (242, [210]); (243, [211]); (244, [212]); (245, [213]);
   (246, [214]); (248, [216]); (249, [217]); (250, [218]); (251, [219]);
   (252, [220]); (253, [221]); (254, [222]); (255, [376]); (257, [256]);
   (259, [258]); (261, [260]); (263, [262]); (265, [264]); (267, [266]);
   (269, [268]); (271, [270]); (273, [272]); (275, [274]); (277, [276]);
   (279, [278]); (281, [280]); (283, [282]); (285, [284]); (287, [286]);
   (289, [288]); (291, [290]); (293, [292]); (295, [294]); (297, [296]);
   (299, [298]); (301, [300]); (303, [302]); (305, [73]); (307, [306]);
   (309, [308]); (311, [310]); (314, [313]); (316, [315]); (318, [317]);
   (320, [319]); (322, [321]); (324, [323]); (326, [325]); (328, [327]);
   (329, [700; 78]); (331, [330]); (333, [332]); (335, [334]);
   (337, [336]); (339, [338]); (341, [340]); (343, [342]); (345, [344]);
   (347, [346]); (349, [348]); (351, [350]); (353, [352]); (355, [354]);
   (357, [356]); (359, [358]); (361, [360]); (363, [362]); (365, [364]);
   (367, [366]); (369, [368]); (371, [370]); (373, [372]); (375, [374]);
   (378, [377]); (380, [379]); (382, [381]); (383, [83]); (384, [579]);
   (387, [386]); (389, [388]); (392, [391]); (396, [395]); (402, [401]);
   (405, [502]); (409, [408]); (410, [573]); (414, [544]); (417, [416]);
   (419, [418]); (421, [420]); (424, [423]); (429, [428]); (432, [431]);
   (436, [435]); (438, [437]); (441, [440]); (445, [444]); (447, [503]);
   (453, [452]); (454, [452]); (456, [455]); (457, [455]); (459, [458]);
   (460, [458]); (462, [461]); (464, [463]); (466, [465]); (468, [467]);
   (470, [469]); (472, [471]); (474, [473]); (476, [475]); (477, [398]);
   (479, [478]); (481, [480]); (483, [482]); (485, [484]); (487, [486]);
   (489, [488]); (491, [490]); (493, [492]); (495, [494]);
   (496, [74; 780]); (498, [497]); (499, [497]); (501, [500]);
   (505, [504]); (507, [506]); (509, [508]); (511, [510]); (513, [512]);
   (515, [514]); (517, [516]); (519, [518]); (521, [520]); (523, [522]);
   (525, [524]); (527, [526]); (529, [528]); (531, [530]); (533, [532]);
   (535, [534]); (537, [536]); (539, [538]); (541, [540]); (543, [542]);
   (547, [546]); (549, [548]); (551, [550]); (553, [552]); (555, [554]);
   (557, [556]); (559, [558]); (561, [560]); (563, [562]); (572, [571]);
   (575, [11390]); (576, [11391]); (578, [577]); (583, [582]);
   (585, [584]); (587, [586]); (589, [588]); (591, [590]); (592, [11375]);
   (593, [11373]); (594, [11376]); (595, [385]); (596, [390]);
   (598, [393]); (599, [394]); (601, [399]); (603, [400]); (604, [42923]);
   (608, [403]); (609, [42924]); (611, [404]); (613, [42893]);
   (614, [42922]); (616, [407]); (617, [406]); (618, [42926]);
   (619, [11362]); (620, [42925]); (623, [412]); (625, [11374]);
   (626, [413]); (629, [415]); (637, [11364]); (640, [422]);
   (642, [42949]); (643, [425]); (647, [42929]); (648, [430]);
   (649, [580]); (650, [433]); (651, [434]); (652, [581]); (658, [439]);
   (669, [42930]); (670, [42928]); (837, [921]); (881, [880]);
   (883, [882]); (887, [886]); (891, [1021]); (892, [1022]); (893, [1023]);
   (912, [921; 776; 769]); (940, [902]); (941, [904]); (942, [905]);
   (943, [906]); (944, [933; 776; 769]); (945, [913]); (946, [914]);
   (947, [915]); (948, [916]); (949, [917]); (950, [918]); (951, [919]);
   (952, [920]); (953, [921]); (954, [922]); (955, [923]); (956, [924]);
   (957, [925]); (958, [926]); (959, [927]); (960, [928]); (961, [929]);
   (962, [931]); (963, [931]); (964, [932]); (965, [933]); (966, [934]);
   (967, [935]); (968, [936]); (969, [937]); (970, [938]); (971, [939]);
   (972, [908]); (973, [910]); (974, [911]); (976, [914]); (977, [920]);
   (981, [934]); (982, [928]); (983, [975]); (985, [984]); (987, [986]);
   (989, [988]); (991, [990]); (993, [992]); (995, [994]); (997, [996]);
   (999, [998]); (1001, [1000]); (1003, [1002]); (1005, [1004]);
   (1007, [1006]); (1008, [922]); (1009, [929]); (1010, [1017]);
   (1011, [895]); (1013, [917]); (1016, [1015]); (1019, [1018]);
   (1072, [1040]); (1073, [1041]); (1074, [1042]); (1075, [1043]);
   (1076, [1044]); (1077, [1045]); (1078, [1046]); (1079, [1047]);
   (1080, [1048]); (1081, [1049]); (1082, [1050]); (1083, [1051]);
   (1084, [1052]); (1085, [1053]); (1086, [1054]); (1087, [1055]);
   (1088, [1056]); (1089, [1057]); (1090, [1058]); (1091, [1059]);
   (1092, [1060]); (1093, [1061]); (1094, [1062]); (1095, [1063]);
   (1096, [1064]); (1097, [1065]); (1098, [1066]); (1099, [1067]);
   (1100, [1068]); (1101, [1069]); (1102, [1070]); (1103, [1071]);
   (1104, [1024]); (1105, [1025]); (1106, [1026]); (1107, [1027]);
   (1108, [1028]); (1109, [1029]); (1110, [1030]); (1111, [1031]);
   (1112, [1032]); (1113, [1033]); (1114, [1034]); (1115, [1035]);
   (1116, [1036]); (1117, [1037]); (1118, [1038]); (1119, [1039]);
   (1121, [1120]); (1123, [1122]); (1125, [1124]); (1127, [1126]);
   (1129, [1128]); (1131, [1130]); (1133, [1132]); (1135, [1134]);
   (1137, [1136]); (1139, [1138]); (1141, [1140]); (1143, [1142]);
   (1145, [1144]); (1147, [1146]); (1149, [1148]); (1151, [1150]);
   (1153, [1152]); (1163, [1162]); (1165, [1164]); (1167, [1166]);
   (1169, [1168]); (1171, [1170]); (1173, [1172]); (1175, [1174]);
   (1177, [1176]); (1179, [1178]); (1181, [1180]); (1183, [1182]);
   (1185, [1184]); (1187, [1186]); (1189, [1188]); (1191, [1190]);
   (1193, [1192]); (1195, [1194]); (1197, [1196]); (1199, [1198]);
   (1201, [1200]); (1203, [1202]); (1205, [1204]); (1207, [1206]);
   (1209, [1208]); (1211, [1210]); (1213, [1212]); (1215, [1214]);
   (1218, [1217]); (1220, [1219]); (1222, [1221]); (1224, [1223]);
   (1226, [1225]); (1228, [1227]); (1230, [1229]); (1231, [1216]);
   (1233, [1232]); (1235, [1234]); (1237, [1236]); (1239, [1238]);
   (1241, [1240]); (1243, [1242]); (1245, [1244]); (1247, [1246]);
   (1249, [1248]); (1251, [1250]); (1253, [1252]); (1255, [1254]);
   (1257, [1256]); (1259, [1258]); (1261, [1260]); (1263, [1262]);
   (1265, [1264]); (1267, [1266]); (1269, [1268]); (1271, [1270]);
   (1273, [1272]); (1275, [1274]); (1277, [1276]); (1279, [1278]);
   (1281, [1280]); (1283, [1282]); (1285, [1284]); (1287, [1286]);
   (1289, [1288]); (1291, [1290]); (1293, [1292]); (1295, [1294]);
   (1297, [1296]); (1299, [1298]); (1301, [1300]); (1303, [1302]);
   (1305, [1304]); (1307, [1306]); (1309, [1308]); (1311, [1310]);
   (1313, [1312]); (1315, [1314]); (1317, [1316]); (1319, [1318]);
   (1321, [1320]); (1323, [1322]); (1325, [1324]); (1327, [1326]);
   (1377, [1329]); (1378, [1330]); (1379, [1331]); (1380, [1332]);
   (1381, [1333]); (1382, [1334]); (1383, [1335]); (1384, [1336]);
   (1385, [1337]); (1386, [1338]); (1387, [1339]); (1388, [1340]);
   (1389, [1341]); (1390, [1342]); (1391, [1343]); (1392, [1344]);
   (1393, [1345]); (1394, [1346]); (1395, [1347]); (1396, [1348]);
   (1397, [1349]); (1398, [1350]); (1399, [1351]); (1400, [1352]);
   (1401, [1353]); (1402, [1354]); (1403, [1355]); (1404, [1356]);
   (1405, [1357]); (1406, [1358]); (1407, [1359]); (1408, [1360]);
   (1409, [1361]); (1410, [1362]); (1411, [1363]); (1412, [1364]);
   (1413, [1365]); (1414, [1366]); (1415, [1333; 1362]); (4304, [7312]);
   (4305, [7313]); (4306, [7314]); (4307, [7315]); (4308, [7316]);
   (4309, [7317]); (4310, [7318]); (4311, [7319]); (4312, [7320]);
   (4313, [7321]); (4314, [7322]); (4315, [7323]); (4316, [7324]);
   (4317, [7325]); (4318, [7326]); (4319, [7327]); (4320, [7328]);
   (4321, [7329]); (4322, [7330]); (4323, [7331]); (4324, [7332]);
   (4325, [7333]); (4326, [7334]); (4327, [7335]); (4328, [7336]);
   (4329, [7337]); (4330, [7338]); (4331, [7339]); (4332, [7340]);
   (4333, [7341]); (4334, [7342]); (4335, [7343]); (4336, [7344]);
   (4337, [7345]); (4338, [7346]); (4339, [7347]); (4340, [7348]);
   (4341, [7349]); (4342, [7350]); (4343, [7351]); (4344, [7352]);
   (4345, [7353]); (4346, [7354]); (4349, [7357]); (4350, [7358]);
   (4351, [7359]); (5112, [5104]); (5113, [5105]); (5114, [5106]);
   (5115, [5107]); (5116, [5108]); (5117, [5109]); (7296, [1042]);
   (7297, [1044]); (7298, [1054]); (7299, [1057]); (7300, [1058]);
   (7301, [1058]); (7302, [1066]); (7303, [1122]); (7304, [42570]);
   (7545, [42877]); (7549, [11363]); (7566, [42950]); (7681, [7680]);
   (7683, [7682]); (7685, [7684]); (7687, [7686]); (7689, [7688]);
   (7691, [7690]); (7693, [7692]); (7695, [7694]); (7697, [7696]);
   (7699, [7698]); (7701, [7700]); (7703, [7702]); (7705, [7704]);
   (7707, [7706]); (7709, [7708]); (7711, [7710]); (7713, [7712]);
   (7715, [7714]); (7717, [7716]); (7719, [7718]); (7721, [7720]);
   (7723, [7722]); (7725, [7724]); (7727, [7726]); (7729, [7728]);
   (7731, [7730]); (7733, [7732]); (7735, [7734]); (7737, [7736]);
   (7739, [7738]); (7741, [7740]); (7743, [7742]); (7745, [7744]);
   (7747, [7746]); (7749, [7748]); (7751, [7750]); (7753, [7752]);
   (7755, [7754]); (7757, [7756]); (7759, [7758]); (7761, [7760]);
   (7763, [7762]); (7765, [7764]); (7767, [7766]); (7769, [7768]);
   (7771, [7770]); (7773, [7772]); (7775, [7774]); (7777, [7776]);
   (7779, [7778]); (7781, [7780]); (7783, [7782]); (7785, [7784]);
   (7787, [7786]); (7789, [7788]); (7791, [7790]); (7793, [7792]);
   (7795, [7794]); (7797, [7796]); (7799, [7798]); (7801, [7800]);
   (7803, [7802]); (7805, [7804]); (7807, [7806]); (7809, [7808]);
   (7811, [7810]); (7813, [7812]); (7815, [7814]); (7817, [7816]);
   (7819, [7818]); (7821, [7820]); (7823, [7822]); (7825, [7824]);
   (7827, [7826]); (7829, [7828]); (7830, [72; 817]); (7831, [84; 776]);
   (7832, [87; 778]); (7833, [89; 778]); (7834, [65; 702]); (7835, [7776]);
   (7841, [7840]); (7843, [7842]); (7845, [7844]); (7847, [7846]);
   (7849, [7848]); (7851, [7850]); (7853, [7852]); (7855, [7854]);
   (7857, [7856]); (7859, [7858]); (7861, [7860]); (7863, [7862]);
   (7865, [7864]); (7867, [7866]); (7869, [7868]); (7871, [7870]);
   (7873, [7872]); (7875, [7874]); (7877, [7876]); (7879, [7878]);
   (7881, [7880]); (7883, [7882]); (7885, [7884]); (7887, [7886]);
   (7889, [7888]); (7891, [7890]); (7893, [7892]); (7895, [7894]);
   (7897, [7896]); (7899, [7898]); (7901, [7900]); (7903, [7902]);
   (7905, [7904]); (7907, [7906]); (7909, [7908]); (7911, [7910]);
   (7913, [7912]); (7915, [7914]); (7917, [7916]); (7919, [7918]);
   (7921, [7920]); (7923, [7922]); (7925, [7924]); (7927, [7926]);
   (7929, [7928]); (7931, [7930]); (7933, [7932]); (7935, [7934]);
   (7936, [7944]); (7937, [7945]); (7938, [7946]); (7939, [7947]);
   (7940, [7948]); (7941, [7949]); (7942, [7950]); (7943, [7951]);
   (7952, [7960]); (7953, [7961]); (7954, [7962]); (7955, [7963]);
   (7956, [7964]); (7957, [7965]); (7968, [7976]); (7969, [7977]);
   (7970, [7978]); (7971, [7979]); (7972, [7980]); (7973, [7981]);
   (7974, [7982]); (7975, [7983]); (7984, [7992]); (7985, [7993]);
   (7986, [7994]); (7987, [7995]); (7988, [7996]); (7989, [7997]);
   (7990, [7998]); (7991, [7999]); (8000, [8008]); (8001, [8009]);
   (8002, [8010]); (8003, [8011]); (8004, [8012]); (8005, [8013]);
   (8016, [933; 787]); (8017, [8025]); (8018, [933; 787; 768]);
   (8019, [8027]); (8020, [933; 787; 769]); (8021, [8029]);
   (8022, [933; 787; 834]); (8023, [8031]); (8032, [8040]); (8033, [8041]);
   (8034, [8042]); (8035, [8043]); (8036, [8044]); (8037, [8045]);
   (8038, [8046]); (8039, [8047]); (8048, [8122]); (8049, [8123]);
   (8050, [8136]); (8051, [8137]); (8052, [8138]); (8053, [8139]);
   (8054, [8154]); (8055, [8155]); (8056, [8184]); (8057, [8185]);
   (8058, [8170]); (8059, [8171]); (8060, [8186]); (8061, [8187]);
   (8064, [7944; 921]); (8065, [7945; 921]); (8066, [7946; 921]);
   (8067, [7947; 921]); (8068, [7948; 921]); (8069, [7949; 921]);
   (8070, [7950; 921]); (8071, [7951; 921]); (8072, [7944; 921]);
   (8073, [7945; 921]); (8074, [7946; 921]); (8075, [7947; 921]);
   (8076, [7948; 921]); (8077, [7949; 921]); (8078, [7950; 921]);
   (8079, [7951; 921]); (8080, [7976; 921]); (8081, [7977; 921]);
   (8082, [7978; 921]); (8083, [7979; 921]); (8084, [7980; 921]);
   (8085, [7981; 921]); (8086, [7982; 921]); (8087, [7983; 921]);
   (8088, [7976; 921]); (8089, [7977; 921]); (8090, [7978; 921]);
   (8091, [7979; 921]); (8092, [7980; 921]); (8093, [7981; 921]);
   (8094, [7982; 921]); (8095, [7983; 921]); (8096, [8040; 921]);
   (8097, [8041; 921]); (8098, [8042; 921]); (8099, [8043; 921]);
   (8100, [8044; 921]); (8101, [8045; 921]); (8102, [8046; 921]);
   (8103, [8047; 921]); (8104, [8040; 921]); (8105, [8041; 921]);
   (8106, [8042; 921]); (8107, [8043; 921]); (8108, [8044; 921]);
   (8109, [8045; 921]); (8110, [8046; 921]); (8111, [8047; 921]);
   (8112, [8120]); (8113, [8121]); (8114, [8122; 921]); (8115, [913; 921]);
   (8116, [902; 921]); (8118, [913; 834]); (8119, [913; 834; 921]);
   (8124, [913; 921]); (8126, [921]); (8130, [8138; 921]);
   (8131, [919; 921]); (8132, [905; 921]); (8134, [919; 834]);
   (8135, [919; 834; 921]); (8140, [919; 921]); (8144, [8152]);
   (8145, [8153]); (8146, [921; 776; 768]); (8147, [921; 776; 769]);
   (8150, [921; 834]); (8151, [921; 776; 834]); (8160, [8168]);
   (8161, [8169]); (8162, [933; 776; 768]); (8163, [933; 776; 769]);
   (8164, [929; 787]); (8165, [8172]); (8166, [933; 834]);
   (8167, [933; 776; 834]); (8178, [8186; 921]); (8179, [937; 921]);
   (8180, [911; 921]); (8182, [937; 834]); (8183, [937; 834; 921]);
   (8188, [937; 921]); (8526, [8498]); (8560, [8544]); (8561, [8545]);
   (8562, [8546]); (8563, [8547]); (8564, [8548]); (8565, [8549]);
   (8566, [8550]); (8567, [8551]); (8568, [8552]); (8569, [8553]);
   (8570, [8554]); (8571, [8555]); (8572, [8556]); (8573, [8557]);
   (8574, [8558]); (8575, [8559]); (8580, [8579]); (9424, [9398]);
   (9425, [9399]); (9426, [9400]); (9427, [9401]); (9428, [9402]);
   (9429, [9403]); (9430, [9404]); (9431, [9405]); (9432, [9406]);
   (9433, [9407]); (9434, [9408]); (9435, [9409]); (9436, [9410]);
   (9437, [9411]); (9438, [9412]); (9439, [9413]); (9440, [9414]);
   (9441, [9415]); (9442, [9416]); (9443, [9417]); (9444, [9418]);
   (9445, [9419]); (9446, [9420]); (9447, [9421]); (9448, [9422]);
   (9449, [9423]); (11312, [11264]); (11313, [11265]); (11314, [11266]);
   (11315, [11267]); (11316, [11268]); (11317, [11269]); (11318, [11270]);
   (11319, [11271]); (11320, [11272]); (11321, [11273]); (11322, [11274]);
   (11323, [11275]); (11324, [11276]); (11325, [11277]); (11326, [11278]);
   (11327, [11279]); (11328, [11280]); (11329, [11281]); (11330, [11282]);
   (11331, [11283]); (11332, [11284]); (11333, [11285]); (11334, [11286]);
   (11335, [11287]); (11336, [11288]); (11337, [11289]); (11338, [11290]);
   (11339, [11291]); (11340, [11292]); (11341, [11293]); (11342, [11294]);
   (11343, [11295]); (11344, [11296]); (11345, [11297]); (11346, [11298]);
   (11347, [11299]); (11348, [11300]); (11349, [11301]); (11350, [11302]);
   (11351, [11303]); (11352, [11304]); (11353, [11305]); (11354, [11306]);
   (11355, [11307]); (11356, [11308]); (11357, [11309]); (11358, [11310]);
   (11359, [11311]); (11361, [11360]); (11365, [570]); (11366, [574]);
   (11368, [11367]); (11370, [11369]); (11372, [11371]); (11379, [11378]);
   (11382, [11381]); (11393, [11392]); (11395, [11394]); (11397, [11396]);
   (11399, [11398]); (11401, [11400]); (11403, [11402]); (11405, [11404]);
   (11407, [11406]); (11409, [11408]); (11411, [11410]); (11413, [11412]);
   (11415, [11414]); (11417, [11416]); (11419, [11418]); (11421, [11420]);
   (11423, [11422]); (11425, [11424]); (11427, [11426]); (11429, [11428]);
   (11431, [11430]); (11433, [11432]); (11435, [11434]); (11437, [11436]);
   (11439, [11438]); (11441, [11440]); (11443, [11442]); (11445, [11444]);
   (11447, [11446]); (11449, [11448]); (11451, [11450]); (11453, [11452]);
   (11455, [11454]); (11457, [11456]); (11459, [11458]); (11461, [11460]);
   (11463, [11462]); (11465, [11464]); (11467, [11466]); (11469, [11468]);
   (11471, [11470]); (11473, [11472]); (11475, [11474]); (11477, [11476]);
   (11479, [11478]); (11481, [11480]); (11483, [11482]); (11485, [11484]);
   (11487, [11486]); (11489, [11488]); (11491, [11490]); (11500, [11499]);
   (11502, [11501]); (11507, [11506]); (11520, [4256]); (11521, [4257]);
   (11522, [4258]); (11523, [4259]); (11524, [4260]); (11525, [4261]);
   (11526, [4262]); (11527, [4263]); (11528, [4264]); (11529, [4265]);
   (11530, [4266]); (11531, [4267]); (11532, [4268]); (11533, [4269]);
   (11534, [4270]); (11535, [4271]); (11536, [4272]); (11537, [4273]);
   (11538, [4274]); (11539, [4275]); (11540, [4276]); (11541, [4277]);
   (11542, [4278]); (11543, [4279]); (11544, [4280]); (11545, [4281]);
   (11546, [4282]); (11547, [4283]); (11548, [4284]); (11549, [4285]);
   (11550, [4286]); (11551, [4287]); (11552, [4288]); (11553, [4289]);
   (11554, [4290]); (11555, [4291]); (11556, [4292]); (11557, [4293]);
   (11559, [4295]); (11565, [4301]); (42561, [42560]); (42563, [42562]);
   (42565, [42564]); (42567, [42566]); (42569, [42568]); (42571, [42570]);
   (42573, [42572]); (42575, [42574]); (42577, [42576]); (42579, [42578]);
   (42581, [42580]); (42583, [42582]); (42585, [42584]); (42587, [42586]);
   (42589, [42588]); (42591, [42590]); (42593, [42592]); (42595, [42594]);
   (42597, [42596]); (42599, [42598]); (42601, [42600]); (42603, [42602]);
   (42605, [42604]); (42625, [42624]); (42627, [42626]); (42629, [42628]);
   (42631, [42630]); (42633, [42632]); (42635, [42634]); (42637, [42636]);
   (42639, [42638]); (42641, [42640]); (42643, [42642]); (42645, [42644]);
   (42647, [42646]); (42649, [42648]); (42651, [42650]); (42787, [42786]);
   (42789, [42788]); (42791, [42790]); (42793, [42792]); (42795, [42794]);
   (42797, [42796]); (42799, [42798]); (42803, [42802]); (42805, [42804]);
   (42807, [42806]); (42809, [42808]); (42811, [42810]); (42813, [42812]);
   (42815, [42814]); (42817, [42816]); (42819, [42818]); (42821, [42820]);
   (42823, [42822]); (42825, [42824]); (42827, [42826]); (42829, [42828]);
   (42831, [42830]); (42833, [42832]); (42835, [42834]); (42837, [42836]);
   (42839, [42838]); (42841, [42840]); (42843, [42842]); (42845, [42844]);
   (42847, [42846]); (42849, [42848]); (42851, [42850]); (42853, [42852]);
   (42855, [42854]); (42857, [42856]); (42859, [42858]); (42861, [42860]);
   (42863, [42862]); (42874, [42873]); (42876, [42875]); (42879, [42878]);
   (42881, [42880]); (42883, [42882]); (42885, [42884]); (42887, [42886]);
   (42892, [42891]); (42897, [42896]); (42899, [42898]); (42900, [42948]);
   (42903, [42902]); (42905, [42904]); (42907, [42906]); (42909, [42908]);
   (42911, [42910]); (42913, [42912]); (42915, [42914]); (42917, [42916]);
   (42919, [42918]); (42921, [42920]); (42933, [42932]); (42935, [42934]);
   (42937, [42936]); (42939, [42938]); (42941, [42940]); (42943, [42942]);
   (42945, [42944]); (42947, [42946]); (42952, [42951]); (42954, [42953]);
   (42961, [42960]); (42967, [42966]); (42969, [42968]); (42998, [42997]);
   (43859, [42931]); (43888, [5024]); (43889, [5025]); (43890, [5026]);
   (43891, [5027]); (43892, [5028]); (43893, [5029]); (43894, [5030]);
   (43895, [5031]); (43896, [5032]); (43897, [5033]); (43898, [5034]);
   (43899, [5035]); (43900, [5036]); (43901, [5037]); (43902, [5038]);
   (43903, [5039]); (43904, [5040]); (43905, [5041]); (43906, [5042]);
   (43907, [5043]); (43908, [5044]); (43909, [5045]); (43910, [5046]);
   (43911, [5047]); (43912, [5048]); (43913, [5049]); (43914, [5050]);
   (43915, [5051]); (43916, [5052]); (43917, [5053]); (43918, [5054]);
   (43919, [5055]); (43920, [5056]); (43921, [5057]); (43922, [5058]);
   (43923, [5059]); (43924, [5060]); (43925, [5061]); (43926, [5062]);
   (43927, [5063]); (43928, [5064]); (43929, [5065]); (43930, [5066]);
   (43931, [5067]); (43932, [5068]); (43933, [5069]); (43934, [5070]);
   (43935, [5071]); (43936, [5072]); (43937, [5073]); (43938, [5074]);
   (43939, [5075]); (43940, [5076]); (43941, [5077]); (43942, [5078]);
   (43943, [5079]); (43944, [5080]); (43945, [5081]); (43946, [5082]);
   (43947, [5083]); (43948, [5084]); (43949, [5085]); (43950, [5086]);
   (43951, [5087]); (43952, [5088]); (43953, [5089]); (43954, [5090]);
   (43955, [5091]); (43956, [5092]); (43957, [5093]); (43958, [5094]);
   (43959, [5095]); (43960, [5096]); (43961, [5097]); (43962, [5098]);
   (43963, [5099]); (43964, [5100]); (43965, [5101]); (43966, [5102]);
   (43967, [5103]); (64256, [70; 70]); (64257, [70; 73]);
   (64258, [70; 76]); (64259, [70; 70; 73]); (64260, [70; 70; 76]);
   (64261, [83; 84]); (64262, [83; 84]); (64275, [1348; 1350]);
   (64276, [1348; 1333]); (64277, [1348; 1339]); (64278, [1358; 1350]);
   (64279, [1348; 1341]); (65345, [65313]); (65346, [65314]);
   (65347, [65315]); (65348, [65316]); (65349, [65317]); (65350, [65318]);
   (65351, [65319]); (65352, [65320]); (65353, [65321]); (65354, [65322]);
   (65355, [65323]); (65356, [65324]); (65357, [65325]); (65358, [65326]);
   (65359, [65327]); (65360, [65328]); (65361, [65329]); (65362, [65330]);
   (65363, [65331]); (65364, [65332]); (65365, [65333]); (65366, [65334]);
   (65367, [65335]); (65368, [65336]); (65369, [65337]); (65370, [65338]);
   (66600, [66560]); (66601, [66561]); (66602, [66562]); (66603, [66563]);
   (66604, [66564]); (66605, [66565]); (66606, [66566]); (66607, [66567]);
   (66608, [66568]); (66609, [66569]); (66610, [66570]); (66611, [66571]);
   (66612, [66572]); (66613, [66573]); (66614, [66574]); (66615, [66575]);
   (66616, [66576]); (66617, [66577]); (66618, [66578]); (66619, [66579]);
   (66620, [66580]); (66621, [66581]); (66622, [66582]); (66623, [66583]);
   (66624, [66584]); (66625, [66585]); (66626, [66586]); (66627, [66587]);
   (66628, [66588]); (66629, [66589]); (66630, [66590]); (66631, [66591]);
   (66632, [66592]); (66633, [66593]); (66634, [66594]); (66635, [66595]);
   (66636, [66596]); (66637, [66597]); (66638, [66598]); (66639, [66599]);
   (66776, [66736]); (66777, [66737]); (66778, [66738]); (66779, [66739]);
   (66780, [66740]); (66781, [66741]); (66782, [66742]); (66783, [66743]);
   (66784, [66744]); (66785, [66745]); (66786, [66746]); (66787, [66747]);
   (66788, [66748]); (66789, [66749]); (66790, [66750]); (66791, [66751]);
   (66792, [66752]); (66793, [66753]); (66794, [66754]); (66795, [66755]);
   (66796, [66756]); (66797, [66757]); (66798, [66758]); (66799, [66759]);
   (66800, [66760]); (66801, [66761]); (66802, [66762]); (66803, [66763]);
   (66804, [66764]); (66805, [66765]); (66806, [66766]); (66807, [66767]);
   (66808, [66768]); (66809, [66769]); (66810, [66770]); (66811, [66771]);
   (66967, [66928]); (66968, [66929]); (66969, [66930]); (66970, [66931]);
   (66971, [66932]); (66972, [66933]); (66973, [66934]); (66974, [66935]);
   (66975, [66936]); (66976, [66937]); (66977, [66938]); (66979, [66940]);
   (66980, [66941]); (66981, [66942]); (66982, [66943]); (66983, [66944]);
   (66984, [66945]); (66985, [66946]); (66986, [66947]); (66987, [66948]);
   (66988, [66949]); (66989, [66950]); (66990, [66951]); (66991, [66952]);
   (66992, [66953]); (66993, [66954]); (66995, [66956]); (66996, [66957]);
   (66997, [66958]); (66998, [66959]); (66999, [66960]); (67000, [66961]);
   (67001, [66962]); (67003, [66964]); (67004, [66965]); (68800, [68736]);
   (68801, [68737]); (68802, [68738]); (68803, [68739]); (68804, [68740]);
   (68805, [68741]); (68806, [68742]); (68807, [68743]); (68808, [68744]);
   (68809, [68745]); (68810, [68746]); (68811, [68747]); (68812, [68748]);
   (68813, [68749]); (68814, [68750]); (68815, [68751]); (68816, [68752]);
   (68817, [68753]); (68818, [68754]); (68819, [68755]); (68820, [68756]);
   (68821, [68757]); (68822, [68758]); (68823, [68759]); (68824, [68760]);
   (68825, [68761]); (68826, [68762]); (68827, [68763]); (68828, [68764]);
   (68829, [68765]); (68830, [68766]); (68831, [68767]); (68832, [68768]);
   (68833, [68769]); (68834, [68770]); (68835, [68771]); (68836, [68772]);
   (68837, [68773]); (68838, [68774]); (68839, [68775]); (68840, [68776]);
   (68841, [68777]); (68842, [68778]); (68843, [68779]); (68844, [68780]);
   (68845, [68781]); (68846, [68782]); (68847, [68783]); (68848, [68784]);
   (68849, [68785]); (68850, [68786]); (71872, [71840]); (71873, [71841]);
   (71874, [71842]); (71875, [71843]); (71876, [71844]); (71877, [71845]);
   (71878, [71846]); (71879, [71847]); (71880, [71848]); (71881, [71849]);
   (71882, [71850]); (71883, [71851]); (71884, [71852]); (71885, [71853]);
   (71886, [71854]); (71887, [71855]); (71888, [71856]); (71889, [71857]);
   (71890, [71858]); (71891, [71859]); (71892, [71860]); (71893, [71861]);
   (71894, [71862]); (71895, [71863]); (71896, [71864]); (71897, [71865]);
   (71898, [71866]); (71899, [71867]); (71900, [71868]); (71901, [71869]);
   (71902, [71870]); (71903, [71871]); (93792, [93760]); (93793, [93761]);
   (93794, [93762]); (93795, [93763]); (93796, [93764]); (93797, [93765]);
   (93798, [93766]); (93799, [93767]); (93800, [93768]); (93801, [93769]);
   (93802, [93770]); (93803, [93771]); (93804, [93772]); (93805, [93773]);
   (93806, [93774]); (93807, [93775]); (93808, [93776]); (93809, [93777]);
   (93810, [93778]); (93811, [93779]); (93812, [93780]); (93813, [93781]);
   (93814, [93782]); (93815, [93783]); (93816, [93784]); (93817, [93785]);
   (93818, [93786]); (93819, [93787]); (93820, [93788]); (93821, [93789]);
   (93822, [93790]); (93823, [93791]); (125218, [125184]);
   (125219, [125185]); (125220, [125186]); (125221, [125187]);
   (125222, [125188]); (125223, [125189]); (125224, [125190]);
   (125225, [125191]); (125226, [125192]); (125227, [125193]);
   (125228, [125194]); (125229, [125195]); (125230, [125196]);
   (125231, [125197]); (125232, [125198]); (125233, [125199]);
   (125234, [125200]); (125235, [125201]); (125236, [125202]);
   (125237, [125203]); (125238, [125204]); (125239, [125205]);
   (125240, [125206]); (125241, [125207]); (125242, [125208]);
   (125243, [125209]); (125244, [125210]); (125245, [125211]);
   (125246, [125212]); (125247, [125213]); (125248, [125214]);
   (125249, [125215]); (125250, [125216]); (125251, [125217])
  ]%N.

(** The characters [str.isspace] holds of, which [str.strip] removes. *)
Definition WHITESPACE : list char :=
  [
   9; 10; 11; 12; 13; 28; 29; 30; 31; 32; 133; 160; 5760; 8192; 8193; 8194;
   8195; 8196; 8197; 8198; 8199; 8200; 8201; 8202; 8232; 8233; 8239; 8287;
   12288
  ]%N.

(** [ch.upper()] *)
Definition upper_char (ch : char) : str :=
  match find (fun entry => N.eqb (fst entry) ch) UPPER_TABLE with
  | Some entry => snd entry
  | None => [ch]
  end.

(** [s.upper()]: character by character. *)
Definition upper (s : str) : str := flat_map upper_char s.

(** [ch.isspace()] *)
Definition is_space (ch : char) : bool := char_in ch WHITESPACE.

(** [s.isascii()] *)
Definition isascii (s : str) : bool := forallb (fun ch => (ch <? 128)%N) s.

(** A surrogate code point (U+D800..U+DFFF): [s.encode("utf-8")] raises
    [UnicodeEncodeError] on a string that holds one. *)
Definition is_surrogate (ch : char) : bool :=
  ((55296 <=? ch) && (ch <=? 57343))%N.

Definition encodable (s : str) : bool := negb (existsb is_surrogate s).

Fixpoint lstrip (s : str) : str :=
  match s with
  | [] => []
  | ch :: rest => if is_space ch then lstrip rest else s
  end.

Fixpoint rstrip (s : str) : str :=
  match s with
  | [] => []
  | ch :: rest =>
      match rstrip rest with
      | [] => if is_space ch then [] else [ch]
      | kept => ch :: kept
      end
  end.

Definition strip (s : str) : str := rstrip (lstrip s).

Definition str_eqb (a b : str) : bool :=
  if list_eq_dec N.eq_dec a b then true else false.

(** ** The comparison, in the words of the specification *)

(** [l] is the lower-case form of the upper-case ASCII letter [u]. *)
Definition lower_of (u l : char) : Prop :=
  (65 <= u <= 90 /\ l = u + 32)%N.

(** Two characters are the same up to letter case. *)
Definition same_letter (c d : char) : Prop :=
  c = d \/ lower_of c d \/ lower_of d c.

(** Two strings are equal ignoring letter case: same length, and the same
    character up to case at every position. *)
Definition eq_ignore_case (a b : str) : Prop := Forall2 same_letter a b.

Definition whitespace (s : str) : Prop :=
  Forall (fun ch => is_space ch = true) s.

(** [s] neither starts nor ends with whitespace. *)
Definition bare (s : str) : Prop :=
  (forall ch rest, s = ch :: rest -> is_space ch = false)
  /\ (forall ch front, s = front ++ [ch] -> is_space ch = false).

(** [core] is [a] with its leading and trailing whitespace removed. *)
Definition trimmed (a core : str) : Prop :=
  exists l r : str,
    a = l ++ core ++ r /\ whitespace l /\ whitespace r /\ bare core.


(** ** Configuration *)

Definition CAPTCHA_LENGTH : nat := 5.
Definition CAPTCHA_TTL_SECONDS : Q := 120%Q.

Definition ascii_uppercase : str := py "ABCDEFGHIJKLMNOPQRSTUVWXYZ".
Definition digits : str := py "0123456789".

(** [''.join(ch for ch in (ascii_uppercase + digits) if ch not in "0O1IJL")] *)
Definition ALLOWED_CHARS : str :=
  filter (fun ch => negb (char_in ch (py "0O1IJL")))
         (ascii_uppercase ++ digits).

(** ** Exceptions *)

Inductive exn : Type :=
| IndexError | AttributeError | TypeError | UnicodeEncodeError.

Inductive result (A : Type) : Type :=
| Ok (a : A)
| Raise (e : exn).

Arguments Ok {A} a.
Arguments Raise {A} e.

(** ** The random source *)

(** The stream of draws of the module-level generator; [randbelow n]
    reduces the next draw into [range(n)]. *)
Definition Rng := nat -> nat.

Definition advance (g : Rng) : Rng := fun i => g (S i).

Definition randbelow (n : nat) (g : Rng) : nat * Rng :=
  (g 0 mod n, advance g).

(** [random.choice(seq)]: [seq[randbelow(len(seq))]], [IndexError] on an
    empty sequence. *)
Definition choice (seq : str) (g : Rng) : result (char * Rng) :=
  match seq with
  | [] => Raise IndexError
  | _ =>
      let (i, g') := randbelow (List.length seq) g in
      match nth_error seq i with
      | Some ch => Ok (ch, g')
      | None => Raise IndexError
      end
  end.

(** [''.join(random.choice(ALLOWED_CHARS) for _ in range(length))] *)
Fixpoint generate_captcha_text (length : nat) (g : Rng) : result (str * Rng) :=
  match length with
  | O => Ok ([], g)
  | S n =>
      match choice ALLOWED_CHARS g with
      | Raise e => Raise e
      | Ok (ch, g') =>
          match generate_captcha_text n g' with
          | Raise e => Raise e
          | Ok (rest, g'') => Ok (ch :: rest, g'')
          end
      end
  end.

(** ** Random integers, colours and angles *)

(** A computation that draws from the random source and may raise; [None]
    is the [ValueError] of an empty range. *)
Definition Draw (A : Type) : Type := Rng -> option (A * Rng).

Definition draw_ret {A : Type} (a : A) : Draw A := fun g => Some (a, g).

Definition draw_bind {A B : Type} (m : Draw A) (f : A -> Draw B) : Draw B :=
  fun g =>
    match m g with
    | Some (a, g') => f a g'
    | None => None
    end.

(** [random.randint(a, b)]: [a + randbelow(b + 1 - a)], [ValueError] when
    the range is empty. *)
Definition randint (a b : Z) : Draw Z :=
  fun g =>
    if (0 <? b + 1 - a)%Z then
      let (r, g') := randbelow (Z.to_nat (b + 1 - a)) g in
      Some ((a + Z.of_nat r)%Z, g')
    else None.

(** [random.random()]: a 53-bit fraction in [0, 1). *)
Definition random (g : Rng) : Q * Rng :=
  (Qmake (Z.of_nat (g 0) mod 2 ^ 53) (2 ^ 53), advance g).

(** [random.uniform(a, b)]: [a + (b - a) * random()]. *)
Definition uniform (a b : Q) : Draw Q :=
  fun g => let (u, g') := random g in Some ((a + (b - a) * u)%Q, g').

Definition Color : Type := (Z * Z * Z)%type.

Definition CHAR_ROTATION_MAX : Q := 25%Q.
Definition LINE_NOISE : nat := 5.
Definition DOT_NOISE : nat := 120.

Section Rendering.

Local Notation "x <- m ;; k" := (draw_bind m (fun x => k))
  (at level 61, m at next level, right associativity).

(** [tuple(random.randint(minv, maxv) for _ in range(3))] *)
Definition _random_color (minv maxv : Z) : Draw Color :=
  r <- randint minv maxv ;;
  g <- randint minv maxv ;;
  b <- randint minv maxv ;;
  draw_ret (r, g, b).

(** ** The drawing done by [render_captcha_image]

    Pillow is outside the repository: the renderer is followed through the
    calls it makes on the image, with their arguments, in the order of the
    source.  [textbbox] is [draw.textbbox((0, 0), s, font=font)] for the
    loaded font. *)
Variable textbbox : str -> Z * Z * Z * Z.

Inductive DrawOp : Type :=
| NewImage (width height : Z)
    (* Image.new("RGB", (width, height), (245, 245, 245)) *)
| DrawLine (start stop : Z * Z) (fill : Color) (width : Z)
    (* draw.line([start, end], fill=..., width=...) *)
| PasteChar (ch : char) (tile : Z * Z) (origin : Z * Z) (fill : Color)
    (angle : Q) (pos : Z * Z)
    (* a tile of size [tile], [ch] drawn on it at [origin] in [fill],
       rotated by [angle], pasted on the image at [pos] *)
| DrawPoint (xy : Z * Z) (fill : Color)
    (* draw.point(xy, fill=...) *)
| FilterSmooth
| FilterSharpen.

Definition bbox_width (b : Z * Z * Z * Z) : Z :=
  let '(x0, _, x1, _) := b in (x1 - x0)%Z.

Definition bbox_height (b : Z * Z * Z * Z) : Z :=
  let '(_, y0, _, y1) := b in (y1 - y0)%Z.

(** [for _ in range(line_noise): ...] *)
Fixpoint noise_lines (n : nat) (width height : Z) : Draw (list DrawOp) :=
  match n with
  | O => draw_ret []
  | S n' =>
      sx <- randint 0 width ;;
      sy <- randint 0 height ;;
      ex <- randint 0 width ;;
      ey <- randint 0 height ;;
      fill <- _random_color 60 200 ;;
      w <- randint 1 3 ;;
      rest <- noise_lines n' width height ;;
      draw_ret (DrawLine (sx, sy) (ex, ey) fill w :: rest)
  end.

(** [for ch in text: ...], with the cursor [x] and the base line [y]. *)
Fixpoint draw_chars (text : str) (x y : Z) : Draw (list DrawOp) :=
  match text with
  | [] => draw_ret []
  | ch :: rest =>
      let ch_bbox := textbbox [ch] in
      let ch_w := bbox_width ch_bbox in
      let ch_h := bbox_height ch_bbox in
      fill <- _random_color 20 220 ;;
      angle <- uniform (- CHAR_ROTATION_MAX) CHAR_ROTATION_MAX ;;
      dy <- randint (-6) 6 ;;
      let y_jitter := (y + dy)%Z in
      dx <- randint (-2) 2 ;;
      ops <- draw_chars rest (x + ch_w)%Z y ;;
      draw_ret (PasteChar ch (ch_w * 3, ch_h * 3)%Z (ch_w, ch_h / 2)%Z fill
                  angle ((x + dx)%Z, y_jitter) :: ops)
  end.

(** [for _ in range(dot_noise): ...] *)
Fixpoint noise_dots (n : nat) (width height : Z) : Draw (list DrawOp) :=
  match n with
  | O => draw_ret []
  | S n' =>
      px <- randint 0 (width - 1) ;;
      py <- randint 0 (height - 1) ;;
      fill <- _random_color 0 200 ;;
      rest <- noise_dots n' width height ;;
      draw_ret (DrawPoint (px, py) fill :: rest)
  end.

(** Where the first character goes: the text centred on the image. *)
Definition text_left (text : str) (width : Z) : Z :=
  ((width - bbox_width (textbbox text)) / 2)%Z.

Definition text_top (text : str) (height : Z) : Z :=
  ((height - bbox_height (textbbox text)) / 2)%Z.

(** [render_captcha_image], as the list of drawing calls it makes. *)
Definition render_captcha_image_ops (text : str) (width height : Z)
    (line_noise dot_noise : nat) : Draw (list DrawOp) :=
  lines <- noise_lines line_noise width height ;;
  let x := text_left text width in
  let y := text_top text height in
  chars <- draw_chars text x y ;;
  dots <- noise_dots dot_noise width height ;;
  draw_ret (NewImage width height :: lines ++ chars ++ dots
            ++ [FilterSmooth; FilterSharpen]).

End Rendering.


(** ** What a rendering has to look like *)

Definition color_within (lo hi : Z) (c : Color) : Prop :=
  let '(r, g, b) := c in
  (lo <= r <= hi /\ lo <= g <= hi /\ lo <= b <= hi)%Z.

(** The arguments of a drawing call, against the image size. *)
Definition op_within (width height : Z) (op : DrawOp) : Prop :=
  match op with
  | NewImage w h => w = width /\ h = height
  | DrawLine (sx, sy) (ex, ey) fill w =>
      (0 <= sx <= width /\ 0 <= sy <= height
       /\ 0 <= ex <= width /\ 0 <= ey <= height /\ 1 <= w <= 3)%Z
      /\ color_within 60 200 fill
  | PasteChar _ _ _ fill angle _ =>
      color_within 20 220 fill /\ (- (25) <= angle <= 25)%Q
  | DrawPoint (x, y) fill =>
      (0 <= x < width /\ 0 <= y < height)%Z /\ color_within 0 200 fill
  | FilterSmooth => True
  | FilterSharpen => True
  end.

Definition is_line (op : DrawOp) : bool :=
  match op with DrawLine _ _ _ _ => true | _ => false end.

Definition is_point (op : DrawOp) : bool :=
  match op with DrawPoint _ _ => true | _ => false end.

(** The characters of [text], pasted from left to right: each on a tile of
    three times its size, at the cursor moved by at most 2 sideways and 6
    up or down, the cursor advancing by the width of the character. *)
Fixpoint laid_out (textbbox : str -> Z * Z * Z * Z) (text : str) (x y : Z)
    (ops : list DrawOp) : Prop :=
  match text, ops with
  | [], [] => True
  | ch :: rest, PasteChar c tile origin _ _ (px, py) :: ops' =>
      let w := bbox_width (textbbox [ch]) in
      let h := bbox_height (textbbox [ch]) in
      c = ch
      /\ tile = (w * 3, h * 3)%Z
      /\ origin = (w, h / 2)%Z
      /\ (x - 2 <= px <= x + 2)%Z
      /\ (y - 6 <= py <= y + 6)%Z
      /\ laid_out textbbox rest (x + w)%Z y ops'
  | _, _ => False
  end.


(** ** Stand-ins for the external libraries

    A concrete image type, renderer and digest, used where a statement is
    evaluated on a complete program: a blank canvas of the configured size
    (the renderer spends one draw), and a digest that returns its input. *)

Definition CAPTCHA_WIDTH : nat := 260.
Definition CAPTCHA_HEIGHT : nat := 90.

Record Canvas : Type := mkCanvas { canvas_width : nat; canvas_height : nat }.

Definition blank_render (_ : str) (g : Rng) : Canvas * Rng :=
  (mkCanvas CAPTCHA_WIDTH CAPTCHA_HEIGHT, advance g).

Definition plain_digest (s : str) : str := s.

(** A generator whose every draw is [k]. *)
Definition const_rng (k : nat) : Rng := fun _ => k.

(** ** Python truthiness *)

(** [bool(x)] for [x] a [str] or [None]. *)
Definition truthy_str (x : option str) : bool :=
  match x with
  | Some (_ :: _) => true
  | _ => false
  end.

(** [bool(x)] for [x] a [float] or [None]: zero is falsy. *)
Definition truthy_float (x : option Q) : bool :=
  match x with
  | Some q => negb (Qeq_bool q 0)
  | None => false
  end.

Section Captcha.

(** Pillow's image type and [render_captcha_image], which draws its noise
    and jitter from the random source. *)
Variable Image : Type.
Variable render_captcha_image : str -> Rng -> Image * Rng.

(** [hashlib.sha256(b).hexdigest()] for [b] the UTF-8 encoding of a
    string. *)
Variable sha256_hexdigest : str -> str.

(** [hashlib.sha256(s.encode("utf-8")).hexdigest()]: the encoding raises
    on a string with a surrogate. *)
Definition sha256_of (s : str) : result str :=
  if encodable s then Ok (sha256_hexdigest s) else Raise UnicodeEncodeError.

(** ** The session object *)

Record CaptchaSession : Type := mkSession {
  text : option str;
  image : option Image;
  created_at : option Q
}.

(** [CaptchaSession.__init__] *)
Definition init : CaptchaSession :=
  {| text := None; image := None; created_at := None |}.

(** A method runs on [self]: it returns a value and the session it leaves
    behind, or raises. *)
Definition Method (A : Type) : Type :=
  CaptchaSession -> result (A * CaptchaSession).

Definition ret {A : Type} (a : A) : Method A :=
  fun self => Ok (a, self).

Definition raise {A : Type} (e : exn) : Method A :=
  fun _ => Raise e.

Definition bind {A B : Type} (m : Method A) (f : A -> Method B) : Method B :=
  fun self =>
    match m self with
    | Ok (a, self') => f a self'
    | Raise e => Raise e
    end.

Notation "x <- m ;; k" := (bind m (fun x => k))
  (at level 61, m at next level, right associativity).
Notation "m ;; k" := (bind m (fun _ => k))
  (at level 61, right associativity).

Definition get_text : Method (option str) :=
  fun self => Ok (text self, self).

Definition get_created_at : Method (option Q) :=
  fun self => Ok (created_at self, self).

Definition set_text (v : option str) : Method unit :=
  fun self =>
    Ok (tt, {| text := v; image := image self; created_at := created_at self |}).

Definition set_image (v : option Image) : Method unit :=
  fun self =>
    Ok (tt, {| text := text self; image := v; created_at := created_at self |}).

Definition set_created_at (v : option Q) : Method unit :=
  fun self =>
    Ok (tt, {| text := text self; image := image self; created_at := v |}).

(** [create]: text, then image, then the time stamp; [now] is what
    [time.time()] returns on the last line. *)
Definition create (now : Q) (g : Rng) : Method Rng :=
  match generate_captcha_text CAPTCHA_LENGTH g with
  | Raise e => raise e
  | Ok (t, g1) =>
      set_text (Some t) ;;
      let (img, g2) := render_captcha_image t g1 in
      set_image (Some img) ;;
      set_created_at (Some now) ;;
      ret g2
  end.

(** [is_valid]: [not self.text or not self.created_at] is Python
    truthiness, so an empty text and a zero time stamp count as absent. *)
Definition is_valid (now : Q) : Method bool :=
  t <- get_text ;;
  c <- get_created_at ;;
  if negb (truthy_str t) || negb (truthy_float c) then ret false
  else
    match c with
    | Some c' => ret (Qle_bool (now - c') CAPTCHA_TTL_SECONDS)
    | None => raise TypeError
    end.

(** [verify] *)
Definition verify (now : Q) (attempt : str) : Method (bool * string) :=
  valid <- is_valid now ;;
  if negb valid then ret (false, "expired"%string)
  else
    t <- get_text ;;
    match t with
    | None => raise AttributeError
    | Some t' =>
        if str_eqb (upper (strip attempt)) (upper t')
        then ret (true, "ok"%string)
        else ret (false, "incorrect"%string)
    end.

(** ** The caller: [LoginApp] *)

Definition DEMO_USERS : list (str * str) :=
  [ (py "admin", sha256_hexdigest (py "Password123"));
    (py "user", sha256_hexdigest (py "qwertyUIOP1")) ].

(** [dict.get] *)
Fixpoint dict_get (k : str) (d : list (str * str)) : option str :=
  match d with
  | [] => None
  | (k', v) :: rest => if str_eqb k k' then Some v else dict_get k rest
  end.

(** [_new_captcha], on the session: [self.captcha.create()]. *)
Definition _new_captcha (now : Q) (g : Rng) : Method Rng := create now g.

(** [_on_login], on the session.  The three strings are the contents of
    the entry fields; [now_verify] and [now_create] are the clock readings
    inside [verify] and inside a following [create]. *)
Definition _on_login (username_var password_var captcha_var : str)
    (now_verify now_create : Q) (g : Rng) : Method Rng :=
  let username := strip username_var in
  let password := password_var in
  let captcha_attempt := strip captcha_var in
  if negb (truthy_str (Some username)) || negb (truthy_str (Some password))
  then ret g
  else
    r <- verify now_verify captcha_attempt ;;
    let (ok, reason) := r in
    if negb ok then
      if String.eqb reason "expired" then _new_captcha now_create g
      else _new_captcha now_create g
    else
      match sha256_of password with
      | Raise e => raise e
      | Ok pwd_hash =>
          let stored_hash := dict_get username DEMO_USERS in
          if truthy_str stored_hash
             && match stored_hash with
                | Some h => str_eqb h pwd_hash
                | None => false
                end
          then set_text None ;; ret g
          else _new_captcha now_create g
      end.

(** ** Reachable sessions *)

(** What a caller can do with a session. *)
Inductive call : Type :=
| CallCreate (now : Q) (g : Rng)
| CallIsValid (now : Q)
| CallVerify (now : Q) (attempt : str)
| CallLogin (username_var password_var captcha_var : str)
    (now_verify now_create : Q) (g : Rng).

(** The session a call leaves behind; [None] when it raises. *)
Definition after (c : call) (self : CaptchaSession) : option CaptchaSession :=
  match c with
  | CallCreate now g =>
      match create now g self with Ok (_, s) => Some s | Raise _ => None end
  | CallIsValid now =>
      match is_valid now self with Ok (_, s) => Some s | Raise _ => None end
  | CallVerify now attempt =>
      match verify now attempt self with Ok (_, s) => Some s | Raise _ => None end
  | CallLogin u p a t1 t2 g =>
      match _on_login u p a t1 t2 g self with
      | Ok (_, s) => Some s
      | Raise _ => None
      end
  end.

Inductive reachable : CaptchaSession -> Prop :=
| reach_init : reachable init
| reach_call (c : call) (s s' : CaptchaSession) :
    reachable s -> after c s = Some s' -> reachable s'.

(** ** Derived notions used in the statements *)

(** The existence test that opens [is_valid]: text and time stamp are both
    truthy. *)
Definition has_challenge (s : CaptchaSession) : bool :=
  truthy_str (text s) && truthy_float (created_at s).

(** What [is_valid] computes, as a function of the session. *)
Definition valid_at (now : Q) (s : CaptchaSession) : bool :=
  match text s, created_at s with
  | Some (_ :: _), Some c =>
      negb (Qeq_bool c 0) && Qle_bool (now - c) CAPTCHA_TTL_SECONDS
  | _, _ => false
  end.

(** The stored text, for comparison ([[]] when unset). *)
Definition stored (s : CaptchaSession) : str :=
  match text s with
  | Some t => t
  | None => []
  end.

(** The three fields are unset together or set together. *)
Definition all_or_nothing (s : CaptchaSession) : Prop :=
  (text s = None /\ image s = None /\ created_at s = None)
  \/ (text s <> None /\ image s <> None /\ created_at s <> None).

(** What holds of the three fields in every reachable session: image and
    time stamp go together, a text comes with both, and a text is a
    non-empty word of the configured length over the alphabet. *)
Definition session_inv (s : CaptchaSession) : Prop :=
  (image s = None <-> created_at s = None)
  /\ (text s <> None -> image s <> None /\ created_at s <> None)
  /\ (forall t, text s = Some t ->
        t <> [] /\ List.length t = CAPTCHA_LENGTH
        /\ Forall (fun ch => In ch ALLOWED_CHARS) t).

(** Two time stamps hold the same value (Python's [==] on floats). *)
Definition same_stamp (a b : option Q) : Prop :=
  match a, b with
  | Some x, Some y => (x == y)%Q
  | None, None => True
  | _, _ => False
  end.


(** ** The application: [LoginApp] as a whole

    The part of the window the handlers read and write: the session, the
    three entry fields, the status line, the picture on the canvas, and the
    message boxes shown so far (most recent first). *)

Inductive Dialog : Type :=
| MissingFields                      (* showwarning("Missing fields", ...) *)
| CaptchaExpired                     (* showwarning("CAPTCHA expired", ...) *)
| CaptchaInvalid                     (* showerror("CAPTCHA invalid", ...) *)
| LoginSuccessful (username : str)   (* showinfo("Login successful", ...) *)
| LoginFailed.                       (* showerror("Login failed", ...) *)

Inductive Status : Type :=
| StatusReady                        (* "Ready" *)
| StatusRefreshed                    (* "CAPTCHA refreshed" *)
| StatusAutofilled                   (* "Demo: captcha autofilled ..." *)
| StatusWelcome (username : str)     (* "Welcome, {username} ..." *)
| StatusLoginFailed.                 (* "Login failed" *)

Record LoginApp : Type := mkApp {
  captcha : CaptchaSession;
  username_var : str;
  password_var : str;
  captcha_var : str;
  status_var : Status;
  _current_captcha_img : option Image;
  dialogs : list Dialog
}.

Definition with_captcha (s : CaptchaSession) (app : LoginApp) : LoginApp :=
  mkApp s (username_var app) (password_var app) (captcha_var app)
        (status_var app) (_current_captcha_img app) (dialogs app).

Definition with_password_var (v : str) (app : LoginApp) : LoginApp :=
  mkApp (captcha app) (username_var app) v (captcha_var app)
        (status_var app) (_current_captcha_img app) (dialogs app).

Definition with_username_var (v : str) (app : LoginApp) : LoginApp :=
  mkApp (captcha app) v (password_var app) (captcha_var app)
        (status_var app) (_current_captcha_img app) (dialogs app).

Definition with_captcha_var (v : str) (app : LoginApp) : LoginApp :=
  mkApp (captcha app) (username_var app) (password_var app) v
        (status_var app) (_current_captcha_img app) (dialogs app).

Definition with_status_var (v : Status) (app : LoginApp) : LoginApp :=
  mkApp (captcha app) (username_var app) (password_var app) (captcha_var app)
        v (_current_captcha_img app) (dialogs app).

Definition with_canvas (v : option Image) (app : LoginApp) : LoginApp :=
  mkApp (captcha app) (username_var app) (password_var app) (captcha_var app)
        (status_var app) v (dialogs app).

Definition show (d : Dialog) (app : LoginApp) : LoginApp :=
  mkApp (captcha app) (username_var app) (password_var app) (captcha_var app)
        (status_var app) (_current_captcha_img app) (d :: dialogs app).

(** [_render_captcha_on_canvas]: the session's image goes on the canvas;
    without an image the conversion raises. *)
Definition _render_captcha_on_canvas (app : LoginApp) : result LoginApp :=
  match image (captcha app) with
  | None => Raise AttributeError
  | Some img => Ok (with_canvas (Some img) app)
  end.

(** [LoginApp._new_captcha] *)
Definition LoginApp_new_captcha (now : Q) (g : Rng) (app : LoginApp)
    : result (Rng * LoginApp) :=
  match create now g (captcha app) with
  | Raise e => Raise e
  | Ok (g', s') =>
      match _render_captcha_on_canvas (with_captcha s' app) with
      | Raise e => Raise e
      | Ok app' =>
          Ok (g', with_status_var StatusRefreshed (with_captcha_var [] app'))
      end
  end.

(** [LoginApp.__init__]: a fresh session, the fields as [_build_ui] leaves
    them, then the first challenge. *)
Definition LoginApp_init (now : Q) (g : Rng) : result (Rng * LoginApp) :=
  LoginApp_new_captcha now g (mkApp init [] [] [] StatusReady None []).

(** [LoginApp._autofill_demo] *)
Definition LoginApp_autofill_demo (app : LoginApp) : LoginApp :=
  if truthy_str (text (captcha app)) then
    with_status_var StatusAutofilled
      (with_captcha_var (stored (captcha app)) app)
  else app.

(** [LoginApp._on_login] *)
Definition LoginApp_on_login (now_verify now_create : Q) (g : Rng)
    (app : LoginApp) : result (Rng * LoginApp) :=
  let username := strip (username_var app) in
  let password := password_var app in
  let captcha_attempt := strip (captcha_var app) in
  if negb (truthy_str (Some username)) || negb (truthy_str (Some password))
  then Ok (g, show MissingFields app)
  else
    match verify now_verify captcha_attempt (captcha app) with
    | Raise e => Raise e
    | Ok ((ok, reason), s') =>
        let app1 := with_captcha s' app in
        if negb ok then
          if String.eqb reason "expired"
          then LoginApp_new_captcha now_create g (show CaptchaExpired app1)
          else LoginApp_new_captcha now_create g (show CaptchaInvalid app1)
        else
          match sha256_of password with
          | Raise e => Raise e
          | Ok pwd_hash =>
              let stored_hash := dict_get username DEMO_USERS in
              if truthy_str stored_hash
                 && match stored_hash with
                    | Some h => str_eqb h pwd_hash
                    | None => false
                    end
              then
                let app2 := with_status_var (StatusWelcome username) app1 in
                let app3 := show (LoginSuccessful username) app2 in
                let app4 :=
                  with_captcha {| text := None;
                                  image := image (captcha app3);
                                  created_at := created_at (captcha app3) |}
                               app3 in
                Ok (g, with_password_var [] app4)
              else
                let app2 := show LoginFailed app1 in
                let app3 := with_status_var StatusLoginFailed app2 in
                LoginApp_new_captcha now_create g app3
          end
    end.

(** What the user can do in the window. *)
Inductive event : Type :=
| TypeUsername (v : str)
| TypePassword (v : str)
| TypeCaptcha (v : str)
| ClickRefresh (now : Q) (g : Rng)
| ClickAutofill
| ClickLogin (now_verify now_create : Q) (g : Rng).

(** The window after an event; [None] when the handler raises (the
    handlers raise before they change anything). *)
Definition handle (e : event) (app : LoginApp) : option LoginApp :=
  match e with
  | TypeUsername v => Some (with_username_var v app)
  | TypePassword v => Some (with_password_var v app)
  | TypeCaptcha v => Some (with_captcha_var v app)
  | ClickRefresh now g =>
      match LoginApp_new_captcha now g app with
      | Ok (_, app') => Some app'
      | Raise _ => None
      end
  | ClickAutofill => Some (LoginApp_autofill_demo app)
  | ClickLogin t1 t2 g =>
      match LoginApp_on_login t1 t2 g app with
      | Ok (_, app') => Some app'
      | Raise _ => None
      end
  end.

(** The windows a user can get to, from start-up on. *)
Inductive app_reachable : LoginApp -> Prop :=
| app_start (now : Q) (g g' : Rng) (app : LoginApp) :
    LoginApp_init now g = Ok (g', app) -> app_reachable app
| app_event (e : event) (app app' : LoginApp) :
    app_reachable app -> handle e app = Some app' -> app_reachable app'.

(** The window shows the challenge the session holds. *)
Definition app_inv (app : LoginApp) : Prop :=
  session_inv (captcha app)
  /\ image (captcha app) <> None
  /\ created_at (captcha app) <> None
  /\ _current_captcha_img app = image (captcha app)
  /\ status_var app <> StatusLoginFailed.

(** The credential test of [_on_login]. *)
Definition credentials_ok (username password : str) : bool :=
  let stored_hash := dict_get username DEMO_USERS in
  truthy_str stored_hash
  && match stored_hash with
     | Some h => str_eqb h (sha256_hexdigest password)
     | None => false
     end.

(** Both fields are filled in, as [_on_login] tests it. *)
Definition fields_filled (app : LoginApp) : bool :=
  truthy_str (Some (strip (username_var app)))
  && truthy_str (Some (password_var app)).

(** The CAPTCHA check of [_on_login] passes: both fields filled, a valid
    challenge, a matching attempt. *)
Definition captcha_passes (now_verify : Q) (app : LoginApp) : bool :=
  fields_filled app
  && valid_at now_verify (captcha app)
  && str_eqb (upper (strip (captcha_var app))) (upper (stored (captcha app))).

(** Everything [_on_login] asks for before it lets the user in: the
    CAPTCHA check passes, the password can be encoded, and the credentials
    are good. *)
Definition login_accepts (now_verify : Q) (app : LoginApp) : bool :=
  captcha_passes now_verify app
  && encodable (password_var app)
  && credentials_ok (strip (username_var app)) (password_var app).

(** The login stops at the digest: the CAPTCHA check passes and the
    password holds a surrogate. *)
Definition login_raises (now_verify : Q) (app : LoginApp) : bool :=
  captcha_passes now_verify app && negb (encodable (password_var app)).

(** The message box a login that is not let in ends with. *)
Definition refusal (now_verify : Q) (app : LoginApp) : Dialog :=
  if negb (valid_at now_verify (captcha app)) then CaptchaExpired
  else if negb (str_eqb (upper (strip (captcha_var app)))
                        (upper (stored (captcha app))))
  then CaptchaInvalid
  else LoginFailed.


(** * Properties *)

(** ** Examples *)

Example ALLOWED_CHARS_value :
  ALLOWED_CHARS = py "ABCDEFGHKMNPQRSTUVWXYZ23456789".
Proof. reflexivity. Qed.

Example strip_example : strip (py " ab3fq ") = py "ab3fq".
Proof. reflexivity. Qed.

Example upper_example : upper (py "ab3fq") = py "AB3FQ".
Proof. reflexivity. Qed.

(** The sharp s becomes two characters; the no-break space is stripped. *)
Example upper_sharp_s : upper [97; 98; 223; 113]%N = py "ABSSQ".
Proof. reflexivity. Qed.

Example strip_no_break_space :
  strip ([160]%N ++ py "AB3FQ" ++ [160]%N) = py "AB3FQ".
Proof. reflexivity. Qed.

(** ** Running the methods *)

Lemma str_eqb_eq (a b : str) : str_eqb a b = true <-> a = b.
Proof.
  unfold str_eqb. destruct (list_eq_dec N.eq_dec a b); split; congruence.
Qed.

Lemma is_valid_run (now : Q) (s : CaptchaSession) :
  is_valid now s = Ok (valid_at now s, s).
Proof.
  unfold is_valid, valid_at, bind, get_text, get_created_at, ret.
  destruct s as [[[|ch t]|] img [c|]]; simpl; try reflexivity.
  destruct (Qeq_bool c 0); reflexivity.
Qed.

Lemma valid_at_text (now : Q) (s : CaptchaSession) :
  valid_at now s = true -> exists ch t, text s = Some (ch :: t).
Proof.
  unfold valid_at. destruct (text s) as [[|ch t]|]; try discriminate.
  intros _. now exists ch, t.
Qed.

Lemma verify_run (now : Q) (attempt : str) (s : CaptchaSession) :
  verify now attempt s =
  Ok (if valid_at now s
      then if str_eqb (upper (strip attempt)) (upper (stored s))
           then (true, "ok"%string)
           else (false, "incorrect"%string)
      else (false, "expired"%string), s).
Proof.
  unfold verify, bind. rewrite is_valid_run.
  destruct (valid_at now s) eqn:V; simpl; [|reflexivity].
  destruct (valid_at_text _ _ V) as (ch & t & E).
  unfold get_text, stored, ret. rewrite E.
  destruct (str_eqb _ _); reflexivity.
Qed.

(** ** The generator *)

Lemma char_in_In (ch : char) (s : str) : char_in ch s = true <-> In ch s.
Proof.
  unfold char_in. rewrite existsb_exists. split.
  - intros (x & Hx & E). apply N.eqb_eq in E. now subst.
  - intros H. exists ch. split; [assumption|]. apply N.eqb_refl.
Qed.

(** The alphabet is the upper-case letters and digits without the six
    ambiguous glyphs. *)
Lemma ALLOWED_CHARS_spec (ch : char) :
  In ch ALLOWED_CHARS <->
  In ch (ascii_uppercase ++ digits) /\ ~ In ch (py "0O1IJL").
Proof.
  unfold ALLOWED_CHARS. rewrite filter_In, negb_true_iff.
  rewrite <- char_in_In with (s := py "0O1IJL").
  destruct (char_in ch (py "0O1IJL")); intuition congruence.
Qed.

Lemma choice_in (seq : str) (g : Rng) :
  seq <> [] ->
  exists ch, choice seq g = Ok (ch, advance g) /\ In ch seq.
Proof.
  intros Hne. unfold choice, randbelow.
  destruct seq as [|c0 rest]; [contradiction|].
  set (seq := c0 :: rest) in *.
  assert (Hlt : g 0 mod List.length seq < List.length seq).
  { apply Nat.mod_upper_bound. discriminate. }
  destruct (nth_error seq (g 0 mod List.length seq)) as [ch|] eqn:E.
  - exists ch. split; [reflexivity|]. eapply nth_error_In; eassumption.
  - apply nth_error_None in E. lia.
Qed.

Lemma generate_captcha_text_spec (length : nat) (g : Rng) :
  exists (t : str) (g' : Rng),
    generate_captcha_text length g = Ok (t, g')
    /\ List.length t = length
    /\ Forall (fun ch => In ch ALLOWED_CHARS) t.
Proof.
  revert g. induction length as [|n IH]; intros g; cbn [generate_captcha_text].
  - exists [], g. repeat split. constructor.
  - destruct (choice_in (seq := ALLOWED_CHARS) g) as (ch & -> & Hin);
      [discriminate|].
    destruct (IH (advance g)) as (rest & g' & -> & Hlen & Hall).
    exists (ch :: rest), g'. simpl. repeat split; auto.
Qed.

(** C4. With the default configuration [generate_captcha_text] returns a
    text of exactly 5 characters, each one from the restricted alphabet:
    the upper-case ASCII letters and the digits without 0, O, 1, I, J, L;
    so none of these six occurs in the text. *)
Theorem generated_text_in_alphabet (g : Rng) :
  exists (t : str) (g' : Rng),
    generate_captcha_text CAPTCHA_LENGTH g = Ok (t, g')
    /\ List.length t = 5
    /\ Forall (fun ch => In ch ALLOWED_CHARS) t
    /\ Forall (fun ch =>
         In ch (py "ABCDEFGHIJKLMNOPQRSTUVWXYZ" ++ py "0123456789")
         /\ ~ In ch (py "0O1IJL")) t
    /\ (forall ch, In ch (py "0O1IJL") -> ~ In ch t).
Proof.
  destruct (generate_captcha_text_spec CAPTCHA_LENGTH g)
    as (t & g' & E & Hlen & Hall).
  exists t, g'. split; [exact E|]. split; [exact Hlen|].
  split; [exact Hall|].
  assert (Hspec : Forall (fun ch =>
            In ch (py "ABCDEFGHIJKLMNOPQRSTUVWXYZ" ++ py "0123456789")
            /\ ~ In ch (py "0O1IJL")) t).
  { eapply Forall_impl; [|exact Hall].
    intros ch Hch. now apply ALLOWED_CHARS_spec in Hch. }
  split; [exact Hspec|].
  intros ch Hbad Hin. rewrite Forall_forall in Hspec.
  destruct (Hspec ch Hin) as [_ Hnot]. contradiction.
Qed.

(** ** Stripping and upper-casing *)

Lemma below_128 (c : char) :
  (c < 128)%N -> In c (map N.of_nat (seq 0 128)).
Proof.
  intros H. rewrite <- (N2Nat.id c). apply in_map. apply in_seq. lia.
Qed.

(** [ch.upper()] and [ch.isspace()] for an ASCII character. *)
Lemma upper_char_ascii (c : char) :
  (c < 128)%N ->
  upper_char c = [if ((97 <=? c) && (c <=? 122))%N then (c - 32)%N else c].
Proof.
  intros H. apply below_128 in H. revert c H. apply Forall_forall.
  assert (T : forallb
                (fun c => str_eqb (upper_char c)
                   [if ((97 <=? c) && (c <=? 122))%N then (c - 32)%N else c])
                (map N.of_nat (seq 0 128)) = true)
    by (vm_compute; reflexivity).
  rewrite forallb_forall in T. apply Forall_forall. intros c Hc.
  apply str_eqb_eq. now apply T.
Qed.

Lemma is_space_ascii (c : char) :
  (c < 128)%N ->
  is_space c
  = (((9 <=? c) && (c <=? 13)) || ((28 <=? c) && (c <=? 32)))%N.
Proof.
  intros H. apply below_128 in H. revert c H. apply Forall_forall.
  assert (T : forallb
                (fun c => Bool.eqb (is_space c)
                   (((9 <=? c) && (c <=? 13)) || ((28 <=? c) && (c <=? 32)))%N)
                (map N.of_nat (seq 0 128)) = true)
    by (vm_compute; reflexivity).
  rewrite forallb_forall in T. apply Forall_forall. intros c Hc.
  apply Bool.eqb_prop. now apply T.
Qed.

Lemma same_letter_ascii (c d : char) :
  same_letter c d -> c = d \/ ((c < 128)%N /\ (d < 128)%N).
Proof.
  unfold same_letter, lower_of. intros [E | [H | H]]; [now left| |]; right; lia.
Qed.

(** Characters that are the same up to case have the same upper-case
    form. *)
Lemma same_letter_upper_char (c d : char) :
  same_letter c d -> upper_char c = upper_char d.
Proof.
  intros H. destruct (same_letter_ascii H) as [-> | [Hc Hd]]; [reflexivity|].
  rewrite (upper_char_ascii Hc), (upper_char_ascii Hd). f_equal.
  unfold same_letter, lower_of in H.
  destruct ((97 <=? c) && (c <=? 122))%N eqn:Ec;
    destruct ((97 <=? d) && (d <=? 122))%N eqn:Ed;
    rewrite ?andb_true_iff, ?andb_false_iff, ?N.leb_le, ?N.leb_gt in *;
    lia.
Qed.

(** For ASCII characters also the other way round. *)
Lemma upper_char_same_letter (c d : char) :
  (c < 128)%N -> (d < 128)%N ->
  (upper_char c = upper_char d <-> same_letter c d).
Proof.
  intros Hc Hd. split; [|apply same_letter_upper_char].
  rewrite (upper_char_ascii Hc), (upper_char_ascii Hd). intros [= H].
  unfold same_letter, lower_of.
  destruct ((97 <=? c) && (c <=? 122))%N eqn:Ec;
    destruct ((97 <=? d) && (d <=? 122))%N eqn:Ed;
    rewrite ?andb_true_iff, ?andb_false_iff, ?N.leb_le, ?N.leb_gt in *;
    lia.
Qed.

Lemma eq_ignore_case_upper (a b : str) :
  eq_ignore_case a b -> upper a = upper b.
Proof.
  unfold upper. induction 1 as [|c d a b H _ IH]; [reflexivity|].
  cbn [flat_map]. now rewrite (same_letter_upper_char H), IH.
Qed.

Lemma isascii_Forall (a : str) :
  isascii a = true <-> Forall (fun c => (c < 128)%N) a.
Proof.
  unfold isascii. rewrite forallb_forall, Forall_forall.
  split; intros H c Hc; apply N.ltb_lt; now apply H.
Qed.

(** On ASCII strings, having the same upper-case form is being equal up
    to letter case. *)
Lemma upper_eq_ignore_case (a b : str) :
  isascii a = true -> isascii b = true ->
  (upper a = upper b <-> eq_ignore_case a b).
Proof.
  intros Ha Hb. split; [|apply eq_ignore_case_upper].
  apply isascii_Forall in Ha, Hb. unfold upper, eq_ignore_case.
  revert b Hb. induction Ha as [|c a Hc Ha IH]; intros b Hb.
  - destruct Hb as [|d b Hd Hb]; [constructor|].
    cbn [flat_map]. rewrite (upper_char_ascii Hd). discriminate.
  - destruct Hb as [|d b Hd Hb].
    + cbn [flat_map]. rewrite (upper_char_ascii Hc). discriminate.
    + cbn [flat_map]. intros H.
      assert (E : upper_char c = upper_char d
                  /\ flat_map upper_char a = flat_map upper_char b).
      { rewrite (upper_char_ascii Hc), (upper_char_ascii Hd) in *.
        injection H as H1 H2. now rewrite H1. }
      destruct E as [E1 E2]. constructor.
      * now apply upper_char_same_letter.
      * now apply IH.
Qed.

Lemma lstrip_split (a : str) :
  exists l : str, a = l ++ lstrip a /\ whitespace l.
Proof.
  induction a as [|c a (l & E & W)]; simpl.
  - exists []. split; [reflexivity|constructor].
  - destruct (is_space c) eqn:S.
    + exists (c :: l). split; [simpl; congruence|now constructor].
    + exists []. split; [reflexivity|constructor].
Qed.

Lemma lstrip_head (a : str) (ch : char) (rest : str) :
  lstrip a = ch :: rest -> is_space ch = false.
Proof.
  induction a as [|c a IH]; simpl; [discriminate|].
  destruct (is_space c) eqn:S; [exact IH|]. now intros [= <- _].
Qed.

Lemma lstrip_whitespace_app (l x : str) :
  whitespace l -> lstrip (l ++ x) = lstrip x.
Proof.
  induction 1 as [|c l Hc _ IH]; simpl; [reflexivity|]. now rewrite Hc.
Qed.

Lemma rstrip_whitespace (r : str) : whitespace r -> rstrip r = [].
Proof.
  induction 1 as [|c r Hc _ IH]; simpl; [reflexivity|]. now rewrite IH, Hc.
Qed.

Lemma rstrip_whitespace_app (x r : str) :
  whitespace r -> rstrip (x ++ r) = rstrip x.
Proof.
  intros W. induction x as [|c x IH]; simpl.
  - now apply rstrip_whitespace.
  - now rewrite IH.
Qed.

Lemma rstrip_keep_last (front : str) (ch : char) :
  is_space ch = false -> rstrip (front ++ [ch]) = front ++ [ch].
Proof.
  intros Hch. induction front as [|c front IH]; simpl.
  - now rewrite Hch.
  - rewrite IH. destruct (front ++ [ch]) eqn:E; [|reflexivity].
    now destruct front.
Qed.

Lemma rstrip_split (x : str) :
  exists r : str, x = rstrip x ++ r /\ whitespace r.
Proof.
  induction x as [|c x (r & E & W)]; simpl.
  - exists []. split; [reflexivity|constructor].
  - destruct (rstrip x) as [|k kept] eqn:R.
    + simpl in E. destruct (is_space c) eqn:S.
      * exists (c :: r). split; [simpl; congruence|now constructor].
      * exists r. split; [simpl; congruence|assumption].
    + simpl in E. exists r. split; [simpl; congruence|assumption].
Qed.

Lemma rstrip_last (x front : str) (ch : char) :
  rstrip x = front ++ [ch] -> is_space ch = false.
Proof.
  revert front. induction x as [|c x IH]; intros front; simpl.
  - now destruct front.
  - destruct (rstrip x) as [|k kept] eqn:R.
    + destruct (is_space c) eqn:S; [now destruct front|].
      destruct front as [|f [|f' front]]; try discriminate.
      now intros [= <-].
    + destruct front as [|f front]; [discriminate|].
      intros [= _ H]. now apply (IH front).
Qed.

(** [strip] removes exactly the leading and trailing whitespace. *)
Lemma strip_trimmed (a core : str) : trimmed a core <-> core = strip a.
Proof.
  unfold trimmed, strip. split.
  - intros (l & r & -> & Wl & Wr & Hhead & Hlast).
    rewrite (lstrip_whitespace_app _ Wl).
    destruct core as [|c core'].
    + simpl. destruct (lstrip_split r) as (l' & E & _).
      assert (W : whitespace (lstrip r)).
      { rewrite E in Wr. apply Forall_app in Wr. exact (proj2 Wr). }
      symmetry. now apply rstrip_whitespace.
    + assert (E : lstrip ((c :: core') ++ r) = (c :: core') ++ r).
      { simpl. now rewrite (Hhead c core' eq_refl). }
      rewrite E, (rstrip_whitespace_app _ Wr).
      destruct (@exists_last _ (c :: core')) as (front & ch & E');
        [discriminate|].
      rewrite E'. symmetry. apply rstrip_keep_last.
      now apply (Hlast ch front).
  - intros ->.
    destruct (lstrip_split a) as (l & El & Wl).
    destruct (rstrip_split (lstrip a)) as (r & Er & Wr).
    exists l, r. split; [now rewrite <- Er, <- El|]. split; [exact Wl|].
    split; [exact Wr|]. split.
    + intros ch rest E. rewrite E in Er. simpl in Er.
      now apply lstrip_head in Er.
    + intros ch front E. now apply rstrip_last in E.
Qed.


(** ** [create] *)

Lemma create_run (now : Q) (g : Rng) (s : CaptchaSession) :
  exists (t : str) (g1 : Rng),
    generate_captcha_text CAPTCHA_LENGTH g = Ok (t, g1)
    /\ List.length t = CAPTCHA_LENGTH
    /\ Forall (fun ch => In ch ALLOWED_CHARS) t
    /\ create now g s =
       Ok (snd (render_captcha_image t g1),
           {| text := Some t;
              image := Some (fst (render_captcha_image t g1));
              created_at := Some now |}).
Proof.
  destruct (generate_captcha_text_spec CAPTCHA_LENGTH g)
    as (t & g1 & E & Hlen & Hall).
  exists t, g1. repeat split; auto.
  unfold create. rewrite E.
  destruct (render_captcha_image t g1) as [img g2].
  reflexivity.
Qed.

Lemma allowed_not_space (ch : char) :
  In ch ALLOWED_CHARS -> is_space ch = false.
Proof.
  assert (H : forallb (fun c => negb (is_space c)) ALLOWED_CHARS = true)
    by reflexivity.
  rewrite forallb_forall in H. intros Hin.
  apply negb_true_iff. now apply H.
Qed.

Lemma rstrip_no_space (s : str) :
  Forall (fun ch => is_space ch = false) s -> rstrip s = s.
Proof.
  induction 1 as [|ch rest Hch _ IH]; simpl; [reflexivity|].
  rewrite IH, Hch. destruct rest; reflexivity.
Qed.

Lemma strip_no_space (s : str) :
  Forall (fun ch => is_space ch = false) s -> strip s = s.
Proof.
  intros H. unfold strip.
  assert (E : lstrip s = s).
  { destruct H as [|ch rest Hch _]; simpl; [reflexivity|]. now rewrite Hch. }
  rewrite E. now apply rstrip_no_space.
Qed.

Lemma strip_generated (t : str) :
  Forall (fun ch => In ch ALLOWED_CHARS) t -> strip t = t.
Proof.
  intros H. apply strip_no_space.
  eapply Forall_impl; [|exact H]. exact allowed_not_space.
Qed.

(** A challenge stamped at a non-zero time is accepted up to and
    including age 120 and refused beyond. *)
Lemma verify_after_create (T : Q) (g : Rng) (s0 : CaptchaSession) :
  ~ (T == 0)%Q ->
  exists (g' : Rng) (s1 : CaptchaSession) (txt : str),
    create T g s0 = Ok (g', s1)
    /\ text s1 = Some txt
    /\ forall t : Q,
         ((t - T <= 120)%Q ->
          verify t txt s1 = Ok ((true, "ok"%string), s1))
         /\ ((120 < t - T)%Q ->
             verify t txt s1 = Ok ((false, "expired"%string), s1)).
Proof.
  intros HT.
  destruct (create_run T g s0) as (txt & g1 & _ & Hlen & Hall & E).
  assert (Z0 : Qeq_bool T 0 = false).
  { destruct (Qeq_bool T 0) eqn:Q0; [|reflexivity].
    apply Qeq_bool_iff in Q0. contradiction. }
  eexists _, _, txt. split; [exact E|]. split; [reflexivity|].
  intros t. rewrite verify_run.
  match goal with |- context [valid_at t ?s] => set (s1 := s) end.
  assert (Hs : stored s1 = txt) by reflexivity.
  assert (Hv : valid_at t s1 = Qle_bool (t - T) CAPTCHA_TTL_SECONDS).
  { unfold valid_at. cbn [text created_at s1].
    destruct txt; [discriminate|]. now rewrite Z0. }
  rewrite Hs, Hv, (strip_generated Hall), (proj2 (str_eqb_eq _ _) eq_refl).
  split; intros H.
  - assert (L : Qle_bool (t - T) CAPTCHA_TTL_SECONDS = true)
      by (apply Qle_bool_iff; exact H).
    now rewrite L.
  - assert (L : Qle_bool (t - T) CAPTCHA_TTL_SECONDS = false).
    { destruct (Qle_bool (t - T) CAPTCHA_TTL_SECONDS) eqn:Q1; [|reflexivity].
      apply Qle_bool_iff in Q1. unfold CAPTCHA_TTL_SECONDS in Q1. lra. }
    now rewrite L.
Qed.

(** C1. After [create] at a clock reading [T] other than 0 (the wall
    clock reads 0.0 only at the epoch instant), and as long as the
    challenge is not replaced, [verify] with the stored text answers
    [(True, "ok")] at every time [t] with [t - T <= 120], the bound
    included, and [(False, "expired")] at every time with [t - T > 120]:
    ok at [T + 119] and [T + 120], expired at [T + 121]. *)
Theorem verify_within_ttl_after_create
    (T : Q) (g : Rng) (s0 : CaptchaSession) :
  ~ (T == 0)%Q ->
  exists (g' : Rng) (s1 : CaptchaSession) (txt : str),
    create T g s0 = Ok (g', s1)
    /\ text s1 = Some txt
    /\ created_at s1 = Some T
    /\ (forall t : Q, (t - T <= 120)%Q ->
          verify t txt s1 = Ok ((true, "ok"%string), s1))
    /\ (forall t : Q, (120 < t - T)%Q ->
          verify t txt s1 = Ok ((false, "expired"%string), s1))
    /\ verify (T + 119)%Q txt s1 = Ok ((true, "ok"%string), s1)
    /\ verify (T + 120)%Q txt s1 = Ok ((true, "ok"%string), s1)
    /\ verify (T + 121)%Q txt s1 = Ok ((false, "expired"%string), s1).
Proof.
  intros HT.
  destruct (verify_after_create g s0 HT) as (g' & s1 & txt & E & Tx & V).
  exists g', s1, txt. split; [exact E|]. split; [exact Tx|].
  split.
  { destruct (create_run T g s0) as (t' & g1 & _ & _ & _ & E').
    rewrite E in E'. now injection E' as _ ->. }
  split; [intros t; apply V|]. split; [intros t; apply V|].
  split; [apply V; lra|]. split; [apply V; lra|apply V; lra].
Qed.

(** At the stamp 0 the truthiness test of [is_valid] takes the challenge
    for absent: a challenge created while the clock reads 0 is refused at
    every time. *)
Lemma create_at_epoch_is_expired (g : Rng) (s0 : CaptchaSession) (t : Q) :
  exists (g' : Rng) (s1 : CaptchaSession) (txt : str),
    create 0 g s0 = Ok (g', s1)
    /\ text s1 = Some txt
    /\ created_at s1 = Some 0%Q
    /\ is_valid t s1 = Ok (false, s1)
    /\ verify t txt s1 = Ok ((false, "expired"%string), s1).
Proof.
  destruct (create_run 0 g s0) as (txt & g1 & _ & Hlen & _ & E).
  eexists _, _, txt. split; [exact E|].
  split; [reflexivity|]. split; [reflexivity|].
  rewrite verify_run, is_valid_run. unfold valid_at. simpl.
  destruct txt; split; reflexivity.
Qed.

(** C8 (as the code has it). Of two consecutive [create] calls each one
    succeeds and stamps [created_at] with the clock reading of that call;
    so the two stamps differ exactly when the two readings differ. *)
Theorem consecutive_create_stamps
    (now1 now2 : Q) (g : Rng) (s0 : CaptchaSession) :
  exists (g1 g2 : Rng) (s1 s2 : CaptchaSession),
    create now1 g s0 = Ok (g1, s1)
    /\ create now2 g1 s1 = Ok (g2, s2)
    /\ created_at s1 = Some now1
    /\ created_at s2 = Some now2
    /\ (~ same_stamp (created_at s2) (created_at s1) <-> ~ (now2 == now1)%Q).
Proof.
  destruct (create_run now1 g s0) as (t1 & h1 & _ & _ & _ & E1).
  destruct (create_run now2 (snd (render_captcha_image t1 h1))
              {| text := Some t1;
                 image := Some (fst (render_captcha_image t1 h1));
                 created_at := Some now1 |})
    as (t2 & h2 & _ & _ & _ & E2).
  eexists _, _, _, _. split; [exact E1|].
  split; [exact E2|]. simpl. repeat split; auto.
Qed.

(** ** The session interface *)

(** C6. A freshly constructed session, on which [create] was never
    called, is not valid, and [verify] answers [(False, "expired")] for
    every attempt, at every time. *)
Theorem fresh_session_is_expired (now : Q) (attempt : str) :
  is_valid now init = Ok (false, init)
  /\ verify now attempt init = Ok ((false, "expired"%string), init).
Proof.
  rewrite verify_run, is_valid_run. split; reflexivity.
Qed.

(** C7. [verify] returns without raising and leaves the session as it
    found it: [text], [image] and [created_at] are the same after the call,
    whichever of the three outcomes it reports. *)
Theorem verify_leaves_session_unchanged
    (now : Q) (attempt : str) (s : CaptchaSession) :
  exists (ok : bool) (reason : string) (s' : CaptchaSession),
    verify now attempt s = Ok ((ok, reason), s')
    /\ text s' = text s /\ image s' = image s /\ created_at s' = created_at s
    /\ s' = s
    /\ (reason = "ok" \/ reason = "incorrect" \/ reason = "expired")%string.
Proof.
  rewrite verify_run.
  destruct (valid_at now s); [destruct (str_eqb _ _)|];
    do 3 eexists; (split; [reflexivity|]); repeat split; auto.
Qed.

(** C3. [verify] reports ["expired"] exactly when [is_valid] is false at
    that moment: an invalid challenge gives [(False, "expired")] whatever
    the attempt, also one that matches the stored text; a valid challenge
    never gives ["expired"], and a valid challenge with an attempt that
    does not match gives [(False, "incorrect")]. *)
Theorem verify_expired_iff_not_valid
    (now : Q) (attempt : str) (s : CaptchaSession) :
  exists (valid ok : bool) (reason : string),
    is_valid now s = Ok (valid, s)
    /\ verify now attempt s = Ok ((ok, reason), s)
    /\ (reason = "expired"%string <-> valid = false)
    /\ (valid = false -> ok = false)
    /\ (valid = true ->
        upper (strip attempt) <> upper (stored s) ->
        ok = false /\ reason = "incorrect"%string).
Proof.
  rewrite verify_run, is_valid_run.
  destruct (valid_at now s).
  - destruct (str_eqb _ _) eqn:E.
    + exists true, true, "ok"%string.
      split; [reflexivity|]. split; [reflexivity|].
      split; [split; discriminate|]. split; [discriminate|].
      intros _ Hne. apply str_eqb_eq in E. contradiction.
    + exists true, false, "incorrect"%string.
      repeat split; try discriminate.
  - exists false, false, "expired"%string.
    repeat split; try discriminate.
Qed.

(** C9. When the text is unset or empty, [is_valid] is false and [verify]
    answers [(False, "expired")] for every attempt, whatever [image] and
    [created_at] hold and however recent the time stamp is. *)
Theorem no_text_is_expired (now : Q) (attempt : str) (s : CaptchaSession) :
  text s = None \/ text s = Some [] ->
  is_valid now s = Ok (false, s)
  /\ verify now attempt s = Ok ((false, "expired"%string), s).
Proof.
  intros H. rewrite verify_run, is_valid_run.
  assert (V : valid_at now s = false).
  { unfold valid_at. destruct H as [-> | ->]; reflexivity. }
  rewrite V. split; reflexivity.
Qed.

(** C10. For a session that holds a challenge, a time stamp that lies in
    the future of the clock passes the age test: [is_valid] returns true,
    since [now - created_at <= TTL] has no lower bound. *)
Theorem future_stamp_is_valid (now c : Q) (s : CaptchaSession) :
  has_challenge s = true ->
  created_at s = Some c ->
  (now < c)%Q ->
  is_valid now s = Ok (true, s).
Proof.
  intros H E L. rewrite is_valid_run. f_equal. f_equal.
  unfold has_challenge in H. apply andb_true_iff in H as [Ht Hc].
  unfold valid_at. rewrite E in *.
  destruct (text s) as [[|ch t]|]; try discriminate.
  simpl in Hc. rewrite Hc. simpl.
  apply Qle_bool_iff. unfold CAPTCHA_TTL_SECONDS. lra.
Qed.

Lemma isascii_strip (a : str) : isascii a = true -> isascii (strip a) = true.
Proof.
  rewrite !isascii_Forall. intros H.
  destruct (proj2 (strip_trimmed a (strip a)) eq_refl) as (l & r & E & _).
  rewrite E in H. apply Forall_app in H as [_ H].
  now apply Forall_app in H as [H _].
Qed.

(** C2 (as the code has it). On a session whose challenge is valid, with
    stored text [t], [verify] answers [(True, "ok")] exactly when the
    attempt, with its leading and trailing whitespace removed, has the
    upper-case form of [t], and [(False, "incorrect")] exactly when it has
    not.  For an ASCII attempt and an ASCII text this is: the trimmed
    attempt equals [t] ignoring letter case.  With ["AB3FQ"] stored, the
    attempts [" ab3fq "] and ["AB3FQ"] are both accepted. *)
Theorem verify_ok_iff_trimmed_caseless
    (now : Q) (attempt t : str) (s : CaptchaSession) :
  is_valid now s = Ok (true, s) ->
  text s = Some t ->
  (verify now attempt s = Ok ((true, "ok"%string), s) <->
   exists core, trimmed attempt core /\ upper core = upper t)
  /\ (verify now attempt s = Ok ((false, "incorrect"%string), s) <->
      ~ exists core, trimmed attempt core /\ upper core = upper t)
  /\ (isascii attempt = true -> isascii t = true ->
      (verify now attempt s = Ok ((true, "ok"%string), s) <->
       exists core, trimmed attempt core /\ eq_ignore_case core t)
      /\ (verify now attempt s = Ok ((false, "incorrect"%string), s) <->
          ~ exists core, trimmed attempt core /\ eq_ignore_case core t))
  /\ (t = py "AB3FQ" ->
      verify now (py " ab3fq ") s = Ok ((true, "ok"%string), s)
      /\ verify now (py "AB3FQ") s = Ok ((true, "ok"%string), s)).
Proof.
  intros V T. rewrite is_valid_run in V. injection V as V.
  assert (St : stored s = t) by (unfold stored; now rewrite T).
  assert (M : forall a,
             str_eqb (upper (strip a)) (upper t) = true <->
             exists core, trimmed a core /\ upper core = upper t).
  { intros a. rewrite str_eqb_eq. split.
    - intros H. exists (strip a). split; [now apply strip_trimmed|exact H].
    - intros (core & Hc & H). apply strip_trimmed in Hc. now subst. }
  assert (R1 : verify now attempt s = Ok ((true, "ok"%string), s) <->
               exists core, trimmed attempt core /\ upper core = upper t).
  { rewrite verify_run, V, St, <- M.
    destruct (str_eqb _ _); split; congruence. }
  assert (R2 : verify now attempt s = Ok ((false, "incorrect"%string), s) <->
               ~ exists core, trimmed attempt core /\ upper core = upper t).
  { rewrite verify_run, V, St, <- M.
    destruct (str_eqb _ _); split; congruence. }
  split; [exact R1|]. split; [exact R2|]. split.
  - intros Ha Ht.
    assert (C : (exists core, trimmed attempt core /\ upper core = upper t)
                <-> exists core, trimmed attempt core /\ eq_ignore_case core t).
    { split; intros (core & Hc & H); exists core; (split; [exact Hc|]).
      - apply upper_eq_ignore_case; auto.
        apply strip_trimmed in Hc. subst core. now apply isascii_strip.
      - now apply eq_ignore_case_upper. }
    rewrite <- C. split; assumption.
  - intros ->. rewrite !verify_run, V, St. split; reflexivity.
Qed.


(** ** The invariant of reachable sessions *)

Lemma create_session_inv (now : Q) (g g' : Rng) (s s' : CaptchaSession) :
  create now g s = Ok (g', s') -> session_inv s'.
Proof.
  destruct (create_run now g s) as (t & g1 & _ & Hlen & Hall & E).
  rewrite E. intros [= _ <-]. unfold session_inv. simpl.
  split; [split; discriminate|].
  split; [intros _; split; discriminate|].
  intros t' [= <-]. repeat split; auto.
  destruct t; discriminate.
Qed.

Lemma clear_text_session_inv (s : CaptchaSession) :
  session_inv s ->
  session_inv {| text := None; image := image s; created_at := created_at s |}.
Proof.
  intros (H1 & _ & _). unfold session_inv. simpl.
  split; [exact H1|]. split; [congruence|]. discriminate.
Qed.

(** The login handler leaves the session alone, replaces the challenge, or
    clears the text. *)
Lemma on_login_cases (u p a : str) (t1 t2 : Q) (g g' : Rng)
    (s s' : CaptchaSession) :
  _on_login u p a t1 t2 g s = Ok (g', s') ->
  s' = s
  \/ create t2 g s = Ok (g', s')
  \/ s' = {| text := None; image := image s; created_at := created_at s |}.
Proof.
  unfold _on_login, _new_captcha.
  destruct (negb (truthy_str (Some (strip u))) || negb (truthy_str (Some p))).
  - intros [= _ <-]. now left.
  - unfold bind at 1. rewrite verify_run.
    match goal with
    | |- context [let (_, _) := ?r in _] => destruct r as [ok reason]
    end.
    destruct (negb ok).
    + destruct (String.eqb reason "expired"); intros H; right; now left.
    + unfold sha256_of. destruct (encodable p); [|discriminate].
      match goal with |- context [if ?c then _ else _] => destruct c end.
      * intros [= _ <-]. right; now right.
      * intros H. right; now left.
Qed.

Lemma after_session_inv (c : call) (s s' : CaptchaSession) :
  session_inv s -> after c s = Some s' -> session_inv s'.
Proof.
  intros Hinv. destruct c as [now g | now | now attempt | u p a t1 t2 g]; simpl.
  - destruct (create now g s) as [[g' s1]|] eqn:E; [|discriminate].
    intros [= <-]. eapply create_session_inv; eassumption.
  - rewrite is_valid_run. now intros [= <-].
  - rewrite verify_run. now intros [= <-].
  - destruct (_on_login u p a t1 t2 g s) as [[g' s1]|] eqn:E; [|discriminate].
    intros [= <-]. destruct (on_login_cases _ _ _ _ _ _ _ E) as [-> | [H | ->]].
    + exact Hinv.
    + eapply create_session_inv; eassumption.
    + now apply clear_text_session_inv.
Qed.

(** C5 (as the code has it). In every session reachable by construction,
    [create], [is_valid], [verify] and the login handler, [image] and
    [created_at] are unset together or set together, a text is present
    only when both are present, and a text that is present is non-empty:
    five characters of the alphabet. *)
Theorem reachable_session_inv (s : CaptchaSession) :
  reachable s -> session_inv s.
Proof.
  induction 1 as [|c s s' _ IH Hstep].
  - unfold session_inv, init. simpl.
    split; [tauto|]. split; [congruence|]. discriminate.
  - eapply after_session_inv; eassumption.
Qed.

(** * Further properties of the code *)

(** ** The generator, in closed form *)

Lemma iter_advance_shift (n : nat) (g : Rng) :
  Nat.iter n advance (advance g) = advance (Nat.iter n advance g).
Proof.
  induction n as [|n IH]; simpl; [reflexivity|]. now rewrite IH.
Qed.

Lemma choice_allowed (g : Rng) :
  choice ALLOWED_CHARS g =
  Ok (nth (g 0 mod List.length ALLOWED_CHARS) ALLOWED_CHARS 65%N,
      advance g).
Proof.
  destruct (choice_in (seq := ALLOWED_CHARS) g) as (ch & E & _);
    [discriminate|].
  rewrite E. f_equal. f_equal.
  unfold choice, randbelow in E.
  change (List.length ALLOWED_CHARS) with 30 in *.
  assert (Hlt : g 0 mod 30 < List.length ALLOWED_CHARS)
    by (apply Nat.mod_upper_bound; discriminate).
  destruct ALLOWED_CHARS as [|c0 rest] eqn:A; [discriminate|].
  rewrite <- A in *.
  destruct (nth_error ALLOWED_CHARS (g 0 mod 30)) as [c|] eqn:N;
    [|discriminate].
  injection E as <-.
  symmetry. now apply nth_error_nth.
Qed.

Lemma generate_captcha_text_run (n : nat) (g : Rng) :
  generate_captcha_text n g =
  Ok (map (fun i => nth (g i mod List.length ALLOWED_CHARS)
                        ALLOWED_CHARS 65%N)
          (seq 0 n),
      Nat.iter n advance g).
Proof.
  revert g. induction n as [|n IH]; intros g; [reflexivity|].
  cbn [generate_captcha_text seq map Nat.iter].
  rewrite choice_allowed, IH.
  rewrite <- seq_shift, map_map, iter_advance_shift.
  reflexivity.
Qed.

(** X1. [generate_captcha_text(n)] never raises, for any [n]: it spends
    exactly [n] draws, and its [i]-th character is the alphabet entry that
    the [i]-th draw selects; for [n = 0] the text is empty and nothing is
    drawn. *)
Theorem generate_captcha_text_closed_form (n : nat) (g : Rng) :
  generate_captcha_text n g =
  Ok (map (fun i => nth (g i mod List.length ALLOWED_CHARS)
                        ALLOWED_CHARS 65%N)
          (seq 0 n),
      Nat.iter n advance g).
Proof.
  revert g. induction n as [|n IH]; intros g; [reflexivity|].
  cbn [generate_captcha_text seq map Nat.iter].
  rewrite choice_allowed, IH.
  rewrite <- seq_shift, map_map, iter_advance_shift.
  reflexivity.
Qed.

(** ** The session over time *)

(** X3. On a session that is not changed, and for a clock that does not
    go back, expiry is final: if [is_valid] is false at one reading it is
    false at every later reading, and [verify] then answers
    [(False, "expired")] whatever the attempt. *)
Theorem expired_stays_expired (t1 t2 : Q) (attempt : str) (s : CaptchaSession) :
  is_valid t1 s = Ok (false, s) ->
  (t1 <= t2)%Q ->
  is_valid t2 s = Ok (false, s)
  /\ verify t2 attempt s = Ok ((false, "expired"%string), s).
Proof.
  rewrite verify_run, !is_valid_run. intros [= V] L.
  assert (V2 : valid_at t2 s = false).
  { unfold valid_at in *.
    destruct (text s) as [[|ch t]|]; try reflexivity.
    destruct (created_at s) as [c|]; try reflexivity.
    destruct (negb (Qeq_bool c 0)); [simpl in *|reflexivity].
    destruct (Qle_bool (t2 - c) CAPTCHA_TTL_SECONDS) eqn:Q2; [|reflexivity].
    apply Qle_bool_iff in Q2.
    assert (Q1 : Qle_bool (t1 - c) CAPTCHA_TTL_SECONDS = true)
      by (apply Qle_bool_iff; lra).
    congruence. }
  rewrite V2. split; reflexivity.
Qed.

(** X4. [create] replaces whatever the session held: the session and the
    random source it leaves do not depend on the session it started from,
    also when a valid challenge was still active. *)
Theorem create_overwrites (now : Q) (g : Rng) (s s' : CaptchaSession) :
  exists (g1 : Rng) (s1 : CaptchaSession),
    create now g s = Ok (g1, s1)
    /\ create now g s' = Ok (g1, s1)
    /\ created_at s1 = Some now
    /\ image s1 <> None.
Proof.
  destruct (create_run now g s) as (t & h & E & _ & _ & E1).
  destruct (create_run now g s') as (t' & h' & E' & _ & _ & E2).
  rewrite E in E'. injection E' as <- <-.
  eexists _, _. split; [exact E1|]. split; [exact E2|].
  split; [reflexivity|discriminate].
Qed.

(** ** What [verify] does not look at *)

Lemma same_letter_space (c d : char) :
  same_letter c d -> is_space c = is_space d.
Proof.
  intros H. destruct (same_letter_ascii H) as [-> | [Hc Hd]]; [reflexivity|].
  rewrite (is_space_ascii Hc), (is_space_ascii Hd).
  unfold same_letter, lower_of in H.
  repeat match goal with
         | |- context [(?x <=? ?y)%N] =>
             let L := fresh in destruct (N.leb_spec x y) as [L|L]
         end; cbn [andb orb]; try reflexivity; lia.
Qed.

Lemma lstrip_ignore_case (a b : str) :
  eq_ignore_case a b -> eq_ignore_case (lstrip a) (lstrip b).
Proof.
  unfold eq_ignore_case. induction 1 as [|c d a b H Hab IH]; cbn [lstrip].
  - constructor.
  - rewrite (same_letter_space H).
    destruct (is_space d); [exact IH|now constructor].
Qed.

Lemma rstrip_ignore_case (a b : str) :
  eq_ignore_case a b -> eq_ignore_case (rstrip a) (rstrip b).
Proof.
  unfold eq_ignore_case. induction 1 as [|c d a b H Hab IH]; cbn [rstrip].
  - constructor.
  - rewrite (same_letter_space H).
    inversion IH as [Ea Eb | c' d' a' b' H' Hab' Ea Eb].
    + destruct (is_space d); [constructor|].
      apply Forall2_cons; [exact H|constructor].
    + apply Forall2_cons; [exact H|]. now apply Forall2_cons.
Qed.

Lemma strip_ignore_case (a b : str) :
  eq_ignore_case a b -> eq_ignore_case (strip a) (strip b).
Proof.
  intros H. unfold strip. now apply rstrip_ignore_case, lstrip_ignore_case.
Qed.

Lemma strip_padded (l a r : str) :
  whitespace l -> whitespace r -> strip (l ++ a ++ r) = strip a.
Proof.
  intros Wl Wr. symmetry. apply strip_trimmed.
  destruct (proj2 (strip_trimmed a (strip a)) eq_refl)
    as (l' & r' & E & Wl' & Wr' & B).
  exists (l ++ l'), (r' ++ r). split.
  - rewrite E at 1. now rewrite <- !app_assoc.
  - split; [apply Forall_app; now split|].
    split; [apply Forall_app; now split|exact B].
Qed.

(** X5. [verify] does not see whitespace around the attempt nor its letter
    case: an attempt padded with whitespace on both sides gets the answer
    of any attempt equal to it up to case.  In particular the extra
    [strip] of the login handler changes nothing. *)
Theorem verify_ignores_padding_and_case
    (now : Q) (l a r b : str) (s : CaptchaSession) :
  whitespace l -> whitespace r -> eq_ignore_case a b ->
  verify now (l ++ a ++ r) s = verify now b s
  /\ verify now (strip b) s = verify now b s.
Proof.
  intros Wl Wr H.
  rewrite !verify_run.
  assert (E1 : upper (strip (l ++ a ++ r)) = upper (strip b)).
  { rewrite (strip_padded a Wl Wr).
    now apply eq_ignore_case_upper, strip_ignore_case. }
  assert (E2 : strip (strip b) = strip b).
  { symmetry. apply strip_trimmed. exists [], [].
    destruct (proj2 (strip_trimmed b (strip b)) eq_refl)
      as (_ & _ & _ & _ & _ & B).
    rewrite app_nil_r. repeat split; try constructor; apply B. }
  now rewrite E1, E2.
Qed.


(** ** Random colours and the drawing *)

Lemma draw_bind_some (A B : Type) (m : Draw A) (f : A -> Draw B)
    (g : Rng) (r : B * Rng) :
  draw_bind m f g = Some r ->
  exists (a : A) (g1 : Rng), m g = Some (a, g1) /\ f a g1 = Some r.
Proof.
  unfold draw_bind. destruct (m g) as [[a g1]|]; [|discriminate].
  intros H. now exists a, g1.
Qed.

Lemma draw_bind_none (A B : Type) (m : Draw A) (f : A -> Draw B) (g : Rng) :
  m g = None -> draw_bind m f g = None.
Proof.
  unfold draw_bind. now intros ->.
Qed.

Lemma randint_range (a b v : Z) (g g' : Rng) :
  randint a b g = Some (v, g') -> (a <= v <= b)%Z /\ g' = advance g.
Proof.
  unfold randint, randbelow.
  destruct (Z.ltb_spec 0 (b + 1 - a)) as [H|H]; [|discriminate].
  intros [= <- <-]. split; [|reflexivity].
  assert (L : g 0 mod Z.to_nat (b + 1 - a) < Z.to_nat (b + 1 - a))
    by (apply Nat.mod_upper_bound; lia).
  lia.
Qed.

Lemma randint_some (a b : Z) (g : Rng) :
  (a <= b)%Z ->
  exists v : Z, randint a b g = Some (v, advance g) /\ (a <= v <= b)%Z.
Proof.
  intros H. destruct (randint a b g) as [[v g']|] eqn:E.
  - destruct (randint_range _ _ _ E) as [Hv ->]. now exists v.
  - unfold randint in E.
    destruct (Z.ltb_spec 0 (b + 1 - a)); [discriminate|lia].
Qed.

Lemma randint_none (a b : Z) (g : Rng) :
  (b < a)%Z -> randint a b g = None.
Proof.
  intros H. unfold randint.
  destruct (Z.ltb_spec 0 (b + 1 - a)); [lia|reflexivity].
Qed.

Ltac draw_inv H :=
  repeat (apply draw_bind_some in H;
          let a := fresh "v" in
          let g := fresh "g" in
          let E := fresh "E" in
          destruct H as (a & g & E & H)).

Lemma random_color_range (lo hi : Z) (c : Color) (g g' : Rng) :
  _random_color lo hi g = Some (c, g') ->
  color_within lo hi c /\ g' = advance (advance (advance g)).
Proof.
  unfold _random_color. intros H. draw_inv H.
  injection H as <- <-.
  apply randint_range in E as [? ->].
  apply randint_range in E0 as [? ->].
  apply randint_range in E1 as [? ->].
  unfold color_within. auto.
Qed.

Lemma random_color_some (lo hi : Z) (g : Rng) :
  (lo <= hi)%Z ->
  exists c : Color,
    _random_color lo hi g = Some (c, advance (advance (advance g)))
    /\ color_within lo hi c.
Proof.
  intros H. unfold _random_color, draw_bind, draw_ret.
  destruct (randint_some g H) as (r & -> & Hr).
  destruct (randint_some (advance g) H) as (gr & -> & Hg).
  destruct (randint_some (advance (advance g)) H) as (b & -> & Hb).
  exists (r, gr, b). split; [reflexivity|]. unfold color_within. auto.
Qed.

(** X6. [_random_color(minv, maxv)] raises exactly when [maxv < minv]
    (an empty range for [randint]); otherwise it returns three components,
    each between [minv] and [maxv] inclusive, so that every call of the
    source (ranges inside 0..220) gives a valid RGB colour. *)
Theorem random_color_within (minv maxv : Z) (g : Rng) :
  (_random_color minv maxv g = None <-> (maxv < minv)%Z)
  /\ (forall (c : Color) (g' : Rng),
        _random_color minv maxv g = Some (c, g') ->
        color_within minv maxv c
        /\ ((0 <= minv)%Z -> (maxv <= 255)%Z -> color_within 0 255 c)).
Proof.
  split.
  - split.
    + intros N. destruct (Z.lt_ge_cases maxv minv) as [L|L]; [exact L|].
      destruct (random_color_some g L) as (c & E & _). congruence.
    + intros L. unfold _random_color. apply draw_bind_none.
      now apply randint_none.
  - intros [[r gr] b] g' E. apply random_color_range in E as [W _].
    split; [exact W|]. unfold color_within in *. lia.
Qed.

Lemma random_unit (g : Rng) : (0 <= fst (random g) <= 1)%Q.
Proof.
  unfold random. cbn [fst].
  assert (P : Z.pos (2 ^ 53) = (2 ^ 53)%Z) by reflexivity.
  pose proof (Z.mod_pos_bound (Z.of_nat (g 0)) (2 ^ 53)%Z eq_refl) as B.
  revert B. generalize (Z.of_nat (g 0%nat) mod 2 ^ 53)%Z. intros n B.
  rewrite <- P in B. revert B. generalize (2 ^ 53)%positive. intros d B.
  unfold Qle. cbn [Qnum Qden]. lia.
Qed.

Lemma uniform_range (angle : Q) (g g' : Rng) :
  uniform (- CHAR_ROTATION_MAX) CHAR_ROTATION_MAX g = Some (angle, g') ->
  (- (25) <= angle <= 25)%Q.
Proof.
  unfold uniform. pose proof (random_unit g) as U.
  destruct (random g) as [u g1]. cbn [fst] in U.
  intros [= <- _]. unfold CHAR_ROTATION_MAX. lra.
Qed.


Lemma noise_lines_spec (n : nat) (w h : Z) (g g' : Rng) (ops : list DrawOp) :
  noise_lines n w h g = Some (ops, g') ->
  List.length ops = n
  /\ Forall (op_within w h) ops
  /\ forallb is_line ops = true.
Proof.
  revert g ops. induction n as [|n IH]; intros g ops H; cbn [noise_lines] in H.
  - injection H as <- <-. repeat split; constructor.
  - apply draw_bind_some in H as (sx & g1 & E1 & H).
    apply draw_bind_some in H as (sy & g2 & E2 & H).
    apply draw_bind_some in H as (ex & g3 & E3 & H).
    apply draw_bind_some in H as (ey & g4 & E4 & H).
    apply draw_bind_some in H as (fill & g5 & E5 & H).
    apply draw_bind_some in H as (lw & g6 & E6 & H).
    apply draw_bind_some in H as (rest & g7 & E7 & H).
    injection H as <- <-.
    apply randint_range in E1 as [B1 _], E2 as [B2 _], E3 as [B3 _],
      E4 as [B4 _], E6 as [B6 _].
    apply random_color_range in E5 as [B5 _].
    destruct (IH _ _ E7) as (L & W & K).
    split; [simpl; congruence|]. split; [|simpl; exact K].
    constructor; [|exact W]. cbn [op_within]. repeat split; tauto.
Qed.

Lemma noise_dots_spec (n : nat) (w h : Z) (g g' : Rng) (ops : list DrawOp) :
  noise_dots n w h g = Some (ops, g') ->
  List.length ops = n
  /\ Forall (op_within w h) ops
  /\ forallb is_point ops = true.
Proof.
  revert g ops. induction n as [|n IH]; intros g ops H; cbn [noise_dots] in H.
  - injection H as <- <-. repeat split; constructor.
  - apply draw_bind_some in H as (px & g1 & E1 & H).
    apply draw_bind_some in H as (py & g2 & E2 & H).
    apply draw_bind_some in H as (fill & g3 & E3 & H).
    apply draw_bind_some in H as (rest & g4 & E4 & H).
    injection H as <- <-.
    apply randint_range in E1 as [B1 _], E2 as [B2 _].
    apply random_color_range in E3 as [B3 _].
    destruct (IH _ _ E4) as (L & W & K).
    split; [simpl; congruence|]. split; [|simpl; exact K].
    constructor; [|exact W]. cbn [op_within]. repeat split; (tauto || lia).
Qed.

Lemma draw_chars_spec (textbbox : str -> Z * Z * Z * Z) (text : str)
    (x y w h : Z) (g g' : Rng) (ops : list DrawOp) :
  draw_chars textbbox text x y g = Some (ops, g') ->
  laid_out textbbox text x y ops /\ Forall (op_within w h) ops.
Proof.
  revert x g ops. induction text as [|ch rest IH]; intros x g ops H;
    cbn [draw_chars] in H.
  - injection H as <- <-. split; [exact I|constructor].
  - apply draw_bind_some in H as (fill & g1 & E1 & H).
    apply draw_bind_some in H as (angle & g2 & E2 & H).
    apply draw_bind_some in H as (dy & g3 & E3 & H).
    apply draw_bind_some in H as (dx & g4 & E4 & H).
    apply draw_bind_some in H as (ops' & g5 & E5 & H).
    injection H as <- <-.
    apply random_color_range in E1 as [B1 _].
    apply uniform_range in E2.
    apply randint_range in E3 as [B3 _], E4 as [B4 _].
    destruct (IH _ _ _ E5) as (L & W).
    split.
    + cbn [laid_out]. repeat split; try reflexivity; try lia. exact L.
    + constructor; [|exact W]. cbn [op_within]. split; [exact B1|exact E2].
Qed.

Lemma noise_lines_some (n : nat) (w h : Z) (g : Rng) :
  (0 <= w)%Z -> (0 <= h)%Z ->
  exists ops g', noise_lines n w h g = Some (ops, g').
Proof.
  intros Hw Hh. revert g. induction n as [|n IH]; intros g; cbn [noise_lines].
  - now exists [], g.
  - unfold draw_bind at 1.
    destruct (randint_some g Hw) as (sx & -> & _). unfold draw_bind at 1.
    destruct (randint_some (advance g) Hh) as (sy & -> & _).
    unfold draw_bind at 1.
    destruct (randint_some (advance (advance g)) Hw) as (ex & -> & _).
    unfold draw_bind at 1.
    destruct (randint_some (advance (advance (advance g))) Hh)
      as (ey & -> & _).
    unfold draw_bind at 1.
    destruct (random_color_some (lo := 60) (hi := 200)
                (advance (advance (advance (advance g)))))
      as (fill & -> & _); [lia|].
    unfold draw_bind at 1.
    match goal with
    | |- context [randint 1 3 ?r] =>
        destruct (randint_some (a := 1) (b := 3) r) as (lw & -> & _); [lia|];
        unfold draw_bind at 1;
        destruct (IH (advance r)) as (rest & g' & ->)
    end.
    eexists _, _. reflexivity.
Qed.

Lemma noise_dots_some (n : nat) (w h : Z) (g : Rng) :
  (1 <= w)%Z -> (1 <= h)%Z ->
  exists ops g', noise_dots n w h g = Some (ops, g').
Proof.
  intros Hw Hh. revert g. induction n as [|n IH]; intros g; cbn [noise_dots].
  - now exists [], g.
  - unfold draw_bind at 1.
    destruct (randint_some (a := 0) (b := w - 1) g) as (px & -> & _); [lia|].
    unfold draw_bind at 1.
    destruct (randint_some (a := 0) (b := h - 1) (advance g))
      as (py & -> & _); [lia|].
    unfold draw_bind at 1.
    destruct (random_color_some (lo := 0) (hi := 200) (advance (advance g)))
      as (fill & -> & _); [lia|].
    unfold draw_bind at 1.
    match goal with
    | |- context [noise_dots n w h ?r] =>
        destruct (IH r) as (rest & g' & ->)
    end.
    eexists _, _. reflexivity.
Qed.

Lemma draw_chars_some (textbbox : str -> Z * Z * Z * Z) (text : str)
    (x y : Z) (g : Rng) :
  exists ops g', draw_chars textbbox text x y g = Some (ops, g').
Proof.
  revert x g. induction text as [|ch rest IH]; intros x g; cbn [draw_chars].
  - now exists [], g.
  - unfold draw_bind at 1.
    destruct (random_color_some (lo := 20) (hi := 220) g)
      as (fill & -> & _); [lia|].
    unfold draw_bind at 1. unfold uniform at 1.
    destruct (random (advance (advance (advance g)))) as [u g2] eqn:R.
    unfold random in R. injection R as _ <-.
    unfold draw_bind at 1.
    match goal with
    | |- context [randint (-6) 6 ?r] =>
        destruct (randint_some (a := (-6)%Z) (b := 6%Z) r)
          as (dy & -> & _); [lia|];
        unfold draw_bind at 1;
        destruct (randint_some (a := (-2)%Z) (b := 2%Z) (advance r))
          as (dx & -> & _); [lia|];
        unfold draw_bind at 1
    end.
    match goal with
    | |- context [draw_chars textbbox rest ?x' y ?r] =>
        destruct (IH x' r) as (ops & g' & ->)
    end.
    eexists _, _. reflexivity.
Qed.


Lemma render_ops_inv (textbbox : str -> Z * Z * Z * Z) (text : str)
    (width height : Z) (line_noise dot_noise : nat) (g g' : Rng)
    (ops : list DrawOp) :
  render_captcha_image_ops textbbox text width height line_noise dot_noise g
  = Some (ops, g') ->
  exists (lines chars dots : list DrawOp) (g1 g2 : Rng),
    noise_lines line_noise width height g = Some (lines, g1)
    /\ draw_chars textbbox text (text_left textbbox text width)
         (text_top textbbox text height) g1 = Some (chars, g2)
    /\ noise_dots dot_noise width height g2 = Some (dots, g')
    /\ ops = NewImage width height
             :: lines ++ chars ++ dots ++ [FilterSmooth; FilterSharpen].
Proof.
  unfold render_captcha_image_ops. intros H.
  apply draw_bind_some in H as (lines & g1 & E1 & H).
  apply draw_bind_some in H as (chars & g2 & E2 & H).
  apply draw_bind_some in H as (dots & g3 & E3 & H).
  injection H as <- <-.
  now exists lines, chars, dots, g1, g2.
Qed.

(** X7. On an image of at least one pixel each way the renderer's random
    draws never fail: every [randint] range it asks for is non-empty, for
    every text, every amount of noise and every state of the random
    source. *)
Theorem render_draws_never_fail (textbbox : str -> Z * Z * Z * Z)
    (text : str) (width height : Z) (line_noise dot_noise : nat) (g : Rng) :
  (1 <= width)%Z -> (1 <= height)%Z ->
  exists (ops : list DrawOp) (g' : Rng),
    render_captcha_image_ops textbbox text width height line_noise dot_noise g
    = Some (ops, g').
Proof.
  intros Hw Hh. unfold render_captcha_image_ops.
  destruct (noise_lines_some line_noise (w := width) (h := height) g)
    as (lines & g1 & E1); [lia|lia|].
  destruct (draw_chars_some textbbox text (text_left textbbox text width)
              (text_top textbbox text height) g1) as (chars & g2 & E2).
  destruct (noise_dots_some dot_noise g2 Hw Hh) as (dots & g3 & E3).
  unfold draw_bind. rewrite E1, E2, E3. eexists _, _. reflexivity.
Qed.

(** X8. With dot noise asked for, the renderer raises on an image without
    pixels (width or height at most 0): [randint(0, width - 1)] has an
    empty range. *)
Theorem render_raises_without_pixels (textbbox : str -> Z * Z * Z * Z)
    (text : str) (width height : Z) (line_noise dot_noise : nat) (g : Rng) :
  (width <= 0 \/ height <= 0)%Z -> 0 < dot_noise ->
  render_captcha_image_ops textbbox text width height line_noise dot_noise g
  = None.
Proof.
  intros Hsize Hdots.
  destruct (render_captcha_image_ops textbbox text width height line_noise
              dot_noise g) as [[ops g']|] eqn:E; [|reflexivity].
  apply render_ops_inv in E as (lines & chars & dots & g1 & g2 & _ & _ & E & _).
  apply noise_dots_spec in E as (L & W & K).
  destruct dots as [|op dots]; [simpl in L; lia|].
  inversion W as [|? ? Hop _]; subst.
  cbn [forallb] in K. apply andb_true_iff in K as [P _].
  destruct op as [| | |[x y] fill| |]; try discriminate.
  cbn [op_within] in Hop. lia.
Qed.

(** X9. Every drawing call of a rendering stays inside its bounds: line
    ends within [0, width] x [0, height] and line widths 1 to 3, dots on
    pixels of the image, rotation angles within 25 degrees either way, and
    colours in the ranges 60..200 (lines), 20..220 (characters) and 0..200
    (dots). *)
Theorem render_ops_within (textbbox : str -> Z * Z * Z * Z) (text : str)
    (width height : Z) (line_noise dot_noise : nat) (g g' : Rng)
    (ops : list DrawOp) :
  render_captcha_image_ops textbbox text width height line_noise dot_noise g
  = Some (ops, g') ->
  Forall (op_within width height) ops.
Proof.
  intros H.
  apply render_ops_inv in H
    as (lines & chars & dots & g1 & g2 & E1 & E2 & E3 & ->).
  apply noise_lines_spec in E1 as (_ & W1 & _).
  apply (@draw_chars_spec _ _ _ _ width height) in E2 as (_ & W2).
  apply noise_dots_spec in E3 as (_ & W3 & _).
  constructor; [split; reflexivity|].
  repeat (apply Forall_app; split); auto.
  repeat constructor.
Qed.

Lemma laid_out_length (textbbox : str -> Z * Z * Z * Z) (text : str)
    (x y : Z) (ops : list DrawOp) :
  laid_out textbbox text x y ops -> List.length ops = List.length text.
Proof.
  revert x ops. induction text as [|ch rest IH]; intros x [|op ops];
    cbn [laid_out]; try (intros F; exact (False_ind _ F)).
  - reflexivity.
  - destruct op as [| |c tile origin fill angle [px py]| | |];
      try (intros F; exact (False_ind _ F)).
    intros (_ & _ & _ & _ & _ & L). simpl. f_equal. exact (IH _ _ L).
Qed.

(** X10. A rendering is, in this order: the blank image, [line_noise]
    lines, one pasted tile per character of the text, [dot_noise] dots,
    then the smoothing and the sharpening filter.  The tiles carry the
    characters of the text from left to right: the first at the position
    that centres the text, each next one further right by the width of the
    character before it, each moved by at most 2 pixels sideways and 6
    pixels up or down. *)
Theorem render_ops_layout (textbbox : str -> Z * Z * Z * Z) (text : str)
    (width height : Z) (line_noise dot_noise : nat) (g g' : Rng)
    (ops : list DrawOp) :
  render_captcha_image_ops textbbox text width height line_noise dot_noise g
  = Some (ops, g') ->
  exists lines chars dots : list DrawOp,
    ops = NewImage width height
          :: lines ++ chars ++ dots ++ [FilterSmooth; FilterSharpen]
    /\ List.length lines = line_noise /\ forallb is_line lines = true
    /\ List.length chars = List.length text
    /\ laid_out textbbox text (text_left textbbox text width)
         (text_top textbbox text height) chars
    /\ List.length dots = dot_noise /\ forallb is_point dots = true.
Proof.
  intros H.
  apply render_ops_inv in H
    as (lines & chars & dots & g1 & g2 & E1 & E2 & E3 & ->).
  apply noise_lines_spec in E1 as (L1 & _ & K1).
  apply (@draw_chars_spec _ _ _ _ width height) in E2 as (L2 & _).
  apply noise_dots_spec in E3 as (L3 & _ & K3).
  exists lines, chars, dots. repeat split; auto.
  eapply laid_out_length; eassumption.
Qed.


(** ** The window *)

Lemma strip_idempotent (a : str) : strip (strip a) = strip a.
Proof.
  symmetry. apply strip_trimmed. exists [], [].
  destruct (proj2 (strip_trimmed a (strip a)) eq_refl)
    as (_ & _ & _ & _ & _ & B).
  rewrite app_nil_r. repeat split; try constructor; apply B.
Qed.

Lemma with_captcha_same (app : LoginApp) : with_captcha (captcha app) app = app.
Proof. now destruct app. Qed.

Lemma new_captcha_run (now : Q) (g : Rng) (app : LoginApp) :
  exists (t : str) (g1 : Rng),
    generate_captcha_text CAPTCHA_LENGTH g = Ok (t, g1)
    /\ List.length t = CAPTCHA_LENGTH
    /\ Forall (fun ch => In ch ALLOWED_CHARS) t
    /\ LoginApp_new_captcha now g app =
       Ok (snd (render_captcha_image t g1),
           mkApp {| text := Some t;
                    image := Some (fst (render_captcha_image t g1));
                    created_at := Some now |}
                 (username_var app) (password_var app) [] StatusRefreshed
                 (Some (fst (render_captcha_image t g1))) (dialogs app)).
Proof.
  destruct (create_run now g (captcha app)) as (t & g1 & E & L & A & C).
  exists t, g1. repeat split; auto.
  unfold LoginApp_new_captcha. rewrite C. reflexivity.
Qed.

(** [_on_login], case by case. *)
Lemma on_login_run (now_verify now_create : Q) (g : Rng) (app : LoginApp) :
  LoginApp_on_login now_verify now_create g app =
  if negb (fields_filled app) then Ok (g, show MissingFields app)
  else if negb (valid_at now_verify (captcha app)) then
    LoginApp_new_captcha now_create g (show CaptchaExpired app)
  else if negb (str_eqb (upper (strip (captcha_var app)))
                        (upper (stored (captcha app)))) then
    LoginApp_new_captcha now_create g (show CaptchaInvalid app)
  else if negb (encodable (password_var app)) then Raise UnicodeEncodeError
  else if credentials_ok (strip (username_var app)) (password_var app) then
    Ok (g, mkApp {| text := None;
                    image := image (captcha app);
                    created_at := created_at (captcha app) |}
                 (username_var app) [] (captcha_var app)
                 (StatusWelcome (strip (username_var app)))
                 (_current_captcha_img app)
                 (LoginSuccessful (strip (username_var app)) :: dialogs app))
  else
    LoginApp_new_captcha now_create g
      (with_status_var StatusLoginFailed (show LoginFailed app)).
Proof.
  unfold LoginApp_on_login, fields_filled, credentials_ok, sha256_of.
  rewrite negb_andb.
  destruct (negb (truthy_str (Some (strip (username_var app))))
            || negb (truthy_str (Some (password_var app)))); [reflexivity|].
  rewrite verify_run, strip_idempotent.
  destruct (valid_at now_verify (captcha app)).
  - destruct (str_eqb (upper (strip (captcha_var app)))
                      (upper (stored (captcha app)))).
    + cbv beta iota zeta. rewrite with_captcha_same. cbn [negb].
      destruct (encodable (password_var app)); cbn [negb]; [|reflexivity].
      match goal with |- context [if ?c then _ else _] => destruct c end;
        reflexivity.
    + cbv beta iota zeta. rewrite with_captcha_same. cbn [negb].
      change (String.eqb "incorrect" "expired") with false.
      cbv iota. reflexivity.
  - cbv beta iota zeta. rewrite with_captcha_same. cbn [negb].
    change (String.eqb "expired" "expired") with true.
    cbv iota. reflexivity.
Qed.

Lemma new_captcha_session (now : Q) (g g' : Rng) (app app' : LoginApp) :
  LoginApp_new_captcha now g app = Ok (g', app') ->
  create now g (captcha app) = Ok (g', captcha app').
Proof.
  unfold LoginApp_new_captcha.
  destruct (create now g (captcha app)) as [[g1 s1]|]; [|discriminate].
  unfold _render_captcha_on_canvas. cbn [captcha with_captcha].
  destruct (image s1); [|discriminate].
  intros [= <- <-]. reflexivity.
Qed.

(** The session part of the handler is [_on_login]. *)
Lemma on_login_session (now_verify now_create : Q) (g g' : Rng)
    (app app' : LoginApp) :
  LoginApp_on_login now_verify now_create g app = Ok (g', app') ->
  _on_login (username_var app) (password_var app) (captcha_var app)
            now_verify now_create g (captcha app) = Ok (g', captcha app').
Proof.
  unfold LoginApp_on_login, _on_login, _new_captcha.
  destruct (negb (truthy_str (Some (strip (username_var app))))
            || negb (truthy_str (Some (password_var app)))).
  - intros [= <- <-]. reflexivity.
  - unfold bind at 1. rewrite verify_run, with_captcha_same.
    match goal with
    | |- context [let (_, _) := ?r in _] => destruct r as [ok reason]
    end.
    destruct (negb ok).
    + destruct (String.eqb reason "expired"); intros H;
        exact (new_captcha_session _ _ _ H).
    + unfold sha256_of. destruct (encodable (password_var app));
        [|discriminate].
      match goal with |- context [if ?c then _ else _] => destruct c end.
      * intros [= <- <-]. reflexivity.
      * intros H. exact (new_captcha_session _ _ _ H).
Qed.

Lemma new_captcha_inv (now : Q) (g g' : Rng) (app app' : LoginApp) :
  LoginApp_new_captcha now g app = Ok (g', app') -> app_inv app'.
Proof.
  intros H. pose proof (new_captcha_session _ _ _ H) as C.
  apply create_session_inv in C.
  destruct (new_captcha_run now g app) as (t & g1 & _ & _ & _ & E).
  rewrite E in H. injection H as <- <-.
  unfold app_inv. cbn [captcha image created_at _current_captcha_img status_var]
    in *.
  split; [exact C|]. split; [discriminate|]. split; [discriminate|].
  split; [reflexivity|discriminate].
Qed.

Lemma app_inv_ext (a b : LoginApp) :
  captcha b = captcha a ->
  _current_captcha_img b = _current_captcha_img a ->
  status_var b <> StatusLoginFailed ->
  app_inv a -> app_inv b.
Proof.
  unfold app_inv. intros -> -> S (Is & Ii & Ic & Iv & _). auto.
Qed.

Lemma on_login_inv (t1 t2 : Q) (g g' : Rng) (app app' : LoginApp) :
  app_inv app ->
  LoginApp_on_login t1 t2 g app = Ok (g', app') -> app_inv app'.
Proof.
  intros IH E. rewrite on_login_run in E.
  assert (St : status_var app <> StatusLoginFailed) by apply IH.
  destruct (negb (fields_filled app)).
  { injection E as _ <-. now apply (@app_inv_ext app). }
  destruct (negb (valid_at t1 (captcha app)));
    [exact (new_captcha_inv _ _ _ E)|].
  destruct (negb (str_eqb _ _)); [exact (new_captcha_inv _ _ _ E)|].
  destruct (negb (encodable _)); [discriminate|].
  destruct (credentials_ok _ _); [|exact (new_captcha_inv _ _ _ E)].
  injection E as _ <-. destruct IH as (Is & Ii & Ic & Iv & _).
  unfold app_inv.
  cbn [captcha image created_at _current_captcha_img status_var].
  split; [now apply clear_text_session_inv|].
  repeat split; try assumption. discriminate.
Qed.

Lemma autofill_inv (app : LoginApp) :
  app_inv app -> app_inv (LoginApp_autofill_demo app).
Proof.
  intros IH. unfold LoginApp_autofill_demo.
  destruct (truthy_str (text (captcha app))); [|exact IH].
  apply (@app_inv_ext app); try reflexivity; [discriminate|exact IH].
Qed.

Lemma handle_inv (e : event) (app app' : LoginApp) :
  app_inv app -> handle e app = Some app' -> app_inv app'.
Proof.
  intros IH.
  assert (St : status_var app <> StatusLoginFailed) by apply IH.
  destruct e as [v | v | v | now g | | t1 t2 g].
  - intros [= <-]. now apply (@app_inv_ext app).
  - intros [= <-]. now apply (@app_inv_ext app).
  - intros [= <-]. now apply (@app_inv_ext app).
  - unfold handle.
    destruct (LoginApp_new_captcha now g app) as [[g' a]|] eqn:E;
      [|discriminate].
    intros [= <-]. exact (new_captcha_inv _ _ _ E).
  - intros [= <-]. now apply autofill_inv.
  - unfold handle.
    destruct (LoginApp_on_login t1 t2 g app) as [[g' a]|] eqn:E;
      [|discriminate].
    intros [= <-]. eapply on_login_inv; eassumption.
Qed.

Lemma init_unfold (now : Q) (g : Rng) :
  LoginApp_init now g
  = LoginApp_new_captcha now g (mkApp init [] [] [] StatusReady None []).
Proof. reflexivity. Qed.

Lemma reachable_app_inv (app : LoginApp) :
  app_reachable app -> app_inv app.
Proof.
  induction 1 as [now g g' app H | e app app' _ IH H].
  - rewrite init_unfold in H. exact (new_captcha_inv _ _ _ H).
  - eapply handle_inv; eassumption.
Qed.

(** X11. In every window the user can get to, the picture on the canvas
    is the image of the session's current challenge, the session has an
    image and a time stamp (the text alone may be gone, after a successful
    login), a text that is present has five characters of the alphabet, and
    the status line never reads "Login failed": the handler overwrites it
    with "CAPTCHA refreshed" before it returns. *)
Theorem app_reachable_inv (app : LoginApp) :
  app_reachable app -> app_inv app.
Proof.
  induction 1 as [now g g' app H | e app app' _ IH H].
  - rewrite init_unfold in H. exact (new_captcha_inv _ _ _ H).
  - eapply handle_inv; eassumption.
Qed.

(** What [_on_login] does, in its four outcomes: fields missing, user let
    in, stopped at the digest, or login refused and the challenge
    replaced. *)
Lemma on_login_outcome (now_verify now_create : Q) (g : Rng) (app : LoginApp) :
  (fields_filled app = false
   /\ LoginApp_on_login now_verify now_create g app
      = Ok (g, show MissingFields app))
  \/ (login_accepts now_verify app = true
      /\ LoginApp_on_login now_verify now_create g app
         = Ok (g, mkApp {| text := None;
                           image := image (captcha app);
                           created_at := created_at (captcha app) |}
                        (username_var app) [] (captcha_var app)
                        (StatusWelcome (strip (username_var app)))
                        (_current_captcha_img app)
                        (LoginSuccessful (strip (username_var app))
                         :: dialogs app)))
  \/ (login_raises now_verify app = true
      /\ LoginApp_on_login now_verify now_create g app
         = Raise UnicodeEncodeError)
  \/ (fields_filled app = true
      /\ login_accepts now_verify app = false
      /\ login_raises now_verify app = false
      /\ exists (t : str) (g1 : Rng),
           List.length t = 5
           /\ LoginApp_on_login now_verify now_create g app
              = Ok (snd (render_captcha_image t g1),
                    mkApp {| text := Some t;
                             image := Some (fst (render_captcha_image t g1));
                             created_at := Some now_create |}
                          (username_var app) (password_var app) []
                          StatusRefreshed
                          (Some (fst (render_captcha_image t g1)))
                          (refusal now_verify app :: dialogs app))).
Proof.
  rewrite on_login_run.
  unfold login_accepts, login_raises, captcha_passes, refusal.
  assert (N : forall d a,
              dialogs a = d :: dialogs app ->
              password_var a = password_var app ->
              username_var a = username_var app ->
              exists (t : str) (g1 : Rng),
                List.length t = 5
                /\ LoginApp_new_captcha now_create g a
                   = Ok (snd (render_captcha_image t g1),
                         mkApp {| text := Some t;
                                  image := Some (fst (render_captcha_image t g1));
                                  created_at := Some now_create |}
                               (username_var app) (password_var app) []
                               StatusRefreshed
                               (Some (fst (render_captcha_image t g1)))
                               (d :: dialogs app))).
  { intros d a Hd Hp Hu.
    destruct (new_captcha_run now_create g a) as (t & g1 & _ & L & _ & E).
    exists t, g1. split; [exact L|]. now rewrite E, Hd, Hp, Hu. }
  destruct (fields_filled app); cbn [negb andb]; [|now left].
  right.
  destruct (valid_at now_verify (captcha app)); cbn [negb andb].
  - destruct (str_eqb _ _); cbn [negb andb].
    + destruct (encodable (password_var app)); cbn [negb andb].
      * destruct (credentials_ok _ _).
        -- left. split; reflexivity.
        -- right. right. repeat (split; [reflexivity|]). now apply N.
      * right. left. split; reflexivity.
    + right. right. repeat (split; [reflexivity|]). now apply N.
  - right. right. repeat (split; [reflexivity|]). now apply N.
Qed.

Lemma refusal_not_success (now_verify : Q) (app : LoginApp) (u : str) :
  refusal now_verify app <> LoginSuccessful u.
Proof.
  unfold refusal.
  destruct (negb (valid_at now_verify (captcha app))); [discriminate|].
  destruct (negb (str_eqb _ _)); discriminate.
Qed.

(** X12. A handler raises in one situation only: a login whose CAPTCHA
    check passed and whose password holds a surrogate, where the encoding
    for the digest raises [UnicodeEncodeError] before anything is changed.
    Every other event returns: [None.upper()] in [verify], a session
    without image on the canvas and a choice from an empty alphabet are
    never reached. *)
Theorem handlers_raise_only_at_digest (e : event) (app : LoginApp) :
  (handle e app = None <->
   exists (t1 t2 : Q) (g : Rng),
     e = ClickLogin t1 t2 g /\ login_raises t1 app = true)
  /\ (forall (t1 t2 : Q) (g : Rng),
        login_raises t1 app = true ->
        LoginApp_on_login t1 t2 g app = Raise UnicodeEncodeError).
Proof.
  assert (N : forall now g a, exists g' a',
               LoginApp_new_captcha now g a = Ok (g', a')).
  { intros now g a.
    destruct (new_captcha_run now g a) as (t & g1 & _ & _ & _ & E).
    rewrite E. eexists _, _. reflexivity. }
  assert (R : forall t1 t2 g,
             login_raises t1 app = true <->
             LoginApp_on_login t1 t2 g app = Raise UnicodeEncodeError).
  { intros t1 t2 g.
    destruct (on_login_outcome t1 t2 g app)
      as [(F & E) | [(A & E) | [(X & E) | (F & A & X & t & h & _ & E)]]];
      rewrite E.
    - unfold login_raises, captcha_passes. rewrite F.
      split; discriminate.
    - unfold login_accepts in A. unfold login_raises.
      apply andb_true_iff in A as [A _]. apply andb_true_iff in A as [A B].
      rewrite A, B. split; discriminate.
    - rewrite X. split; reflexivity.
    - rewrite X. split; discriminate. }
  split.
  - destruct e as [v | v | v | now g | | t1 t2 g]; cbn [handle];
      try (split; [discriminate|intros (? & ? & ? & [=] & _)]).
    + destruct (N now g app) as (g' & a' & ->).
      split; [discriminate|intros (? & ? & ? & [=] & _)].
    + split.
      * intros H. exists t1, t2, g. split; [reflexivity|].
        apply (R t1 t2 g).
        destruct (on_login_outcome t1 t2 g app)
          as [(F & E) | [(A & E) | [(X & E) | (F & A & X & t & h & _ & E)]]];
          rewrite E in *; try discriminate H. reflexivity.
      * intros (t1' & t2' & g0 & [= <- <- <-] & X).
        apply (R t1 t2 g) in X. now rewrite X.
  - intros t1 t2 g X. now apply R.
Qed.

(** X13. A login with the username blank (after stripping) or the
    password empty only shows the "Missing fields" warning: the challenge
    is neither checked nor consumed nor replaced, no random draw is made,
    and fields and status stay as they are. *)
Theorem login_with_missing_fields
    (now_verify now_create : Q) (g : Rng) (app : LoginApp) :
  fields_filled app = false ->
  LoginApp_on_login now_verify now_create g app
  = Ok (g, mkApp (captcha app) (username_var app) (password_var app)
                 (captcha_var app) (status_var app)
                 (_current_captcha_img app)
                 (MissingFields :: dialogs app)).
Proof.
  intros F. rewrite on_login_run, F. reflexivity.
Qed.

(** X14. The handler lets the user in exactly when both fields are
    filled, the challenge is valid at that moment, the attempt matches it,
    the password can be encoded and the credentials are good: under these
    conditions it returns with "Login successful", and a return with
    "Login successful" implies them.  Then the text of the challenge is
    cleared and the password field emptied, while image, time stamp,
    canvas, username and attempt fields stay, the status reads "Welcome",
    and no random draw is made. *)
Theorem login_succeeds_iff
    (now_verify now_create : Q) (g : Rng) (app : LoginApp) :
  (login_accepts now_verify app = true ->
   LoginApp_on_login now_verify now_create g app
   = Ok (g, mkApp {| text := None;
                     image := image (captcha app);
                     created_at := created_at (captcha app) |}
                  (username_var app) [] (captcha_var app)
                  (StatusWelcome (strip (username_var app)))
                  (_current_captcha_img app)
                  (LoginSuccessful (strip (username_var app))
                   :: dialogs app)))
  /\ (forall (g' : Rng) (app' : LoginApp),
        LoginApp_on_login now_verify now_create g app = Ok (g', app') ->
        dialogs app'
        = LoginSuccessful (strip (username_var app)) :: dialogs app ->
        login_accepts now_verify app = true).
Proof.
  destruct (on_login_outcome now_verify now_create g app)
    as [(F & E) | [(A & E) | [(X & E) | (F & A & X & t & h & _ & E)]]];
    rewrite E.
  - split.
    + unfold login_accepts, captcha_passes. rewrite F. discriminate.
    + intros g' app' [= _ <-]. cbn [dialogs show]. discriminate.
  - split; [reflexivity|]. intros _ _ _ _. exact A.
  - split; [|discriminate].
    unfold login_raises in X. unfold login_accepts.
    apply andb_true_iff in X as [-> X]. apply negb_true_iff in X.
    rewrite X. discriminate.
  - split; [rewrite A; discriminate|].
    intros g' app' [= _ <-]. cbn [dialogs]. intros [= D].
    now apply refusal_not_success in D.
Qed.

(** X15. A login with both fields filled that is neither let in nor
    stopped at the digest always replaces the challenge: a new
    five-character text, stamped with the clock reading of the
    replacement, is on the canvas, the attempt field is emptied, the
    password field is kept, and the status reads "CAPTCHA refreshed" (also
    after bad credentials).  The message box tells why: expired, attempt
    wrong, or credentials wrong, in this order of precedence. *)
Theorem refused_login_rotates
    (now_verify now_create : Q) (g : Rng) (app : LoginApp) :
  fields_filled app = true ->
  login_accepts now_verify app = false ->
  login_raises now_verify app = false ->
  exists (g' : Rng) (app' : LoginApp) (t : str),
    LoginApp_on_login now_verify now_create g app = Ok (g', app')
    /\ text (captcha app') = Some t /\ List.length t = 5
    /\ created_at (captcha app') = Some now_create
    /\ _current_captcha_img app' = image (captcha app')
    /\ captcha_var app' = []
    /\ password_var app' = password_var app
    /\ username_var app' = username_var app
    /\ status_var app' = StatusRefreshed
    /\ dialogs app' = refusal now_verify app :: dialogs app.
Proof.
  intros F A X.
  destruct (on_login_outcome now_verify now_create g app)
    as [(F' & _) | [(A' & _) | [(X' & _) | (_ & _ & _ & t & g1 & L & E)]]];
    [congruence|congruence|congruence|].
  rewrite E. eexists _, _, t. split; [reflexivity|].
  cbn [captcha text image created_at _current_captcha_img captcha_var
       password_var username_var status_var dialogs].
  repeat split; auto.
Qed.

(** X16. A challenge is good for one login only: after the handler has
    let the user in, the next login with both fields filled is refused
    with "CAPTCHA expired" and a fresh challenge, whatever is typed into
    the three fields and however soon it comes. *)
Theorem consumed_captcha_cannot_be_reused
    (t1 t2 t3 t4 : Q) (g g1 g2 : Rng) (app app1 : LoginApp)
    (u p c : str) :
  LoginApp_on_login t1 t2 g app = Ok (g1, app1) ->
  dialogs app1 = LoginSuccessful (strip (username_var app)) :: dialogs app ->
  truthy_str (Some (strip u)) = true -> truthy_str (Some p) = true ->
  exists (g3 : Rng) (app2 : LoginApp),
    LoginApp_on_login t3 t4 g2
      (with_captcha_var c (with_password_var p (with_username_var u app1)))
    = Ok (g3, app2)
    /\ dialogs app2 = CaptchaExpired :: dialogs app1
    /\ created_at (captcha app2) = Some t4
    /\ text (captcha app2) <> None.
Proof.
  intros E D Hu Hp.
  assert (T : text (captcha app1) = None).
  { destruct (on_login_outcome t1 t2 g app)
      as [(_ & E') | [(_ & E') | [(_ & E') | (_ & _ & _ & t & h & _ & E')]]];
      rewrite E in E'; try discriminate E'; injection E' as _ ->;
      [discriminate D|reflexivity|].
    cbn [dialogs] in D. injection D as D.
    now apply refusal_not_success in D. }
  set (typed := with_captcha_var c (with_password_var p (with_username_var u app1))).
  assert (F : fields_filled typed = true).
  { unfold fields_filled, typed.
    cbn [username_var password_var with_captcha_var with_password_var
         with_username_var].
    now rewrite Hu, Hp. }
  assert (V : valid_at t3 (captcha typed) = false).
  { unfold typed, valid_at.
    cbn [captcha with_captcha_var with_password_var with_username_var].
    now rewrite T. }
  destruct (on_login_outcome t3 t4 g2 typed)
    as [(F' & _) | [(A & _) | [(X & _) | (_ & _ & _ & t & h & _ & R)]]].
  - congruence.
  - unfold login_accepts, captcha_passes in A. rewrite F, V in A.
    discriminate.
  - unfold login_raises, captcha_passes in X. rewrite F, V in X.
    discriminate.
  - rewrite R. eexists _, _. split; [reflexivity|].
    cbn [dialogs captcha created_at text]. unfold refusal. rewrite V.
    cbn [negb]. repeat split. discriminate.
Qed.

(** X17. The demo autofill always gets past the CAPTCHA: in a window the
    user can get to, with a challenge valid at the time of the login, both
    fields filled and a password that can be encoded, a login right after
    the autofill shows no CAPTCHA message; it ends in "Login successful"
    or "Login failed" as the credentials decide. *)
Theorem autofill_passes_captcha
    (now_verify now_create : Q) (g : Rng) (app : LoginApp) :
  app_reachable app ->
  valid_at now_verify (captcha app) = true ->
  fields_filled app = true ->
  encodable (password_var app) = true ->
  exists (g' : Rng) (app' : LoginApp),
    LoginApp_on_login now_verify now_create g (LoginApp_autofill_demo app)
    = Ok (g', app')
    /\ dialogs app'
       = (if credentials_ok (strip (username_var app)) (password_var app)
          then LoginSuccessful (strip (username_var app))
          else LoginFailed) :: dialogs app.
Proof.
  intros R V F Enc. apply reachable_app_inv in R as ((_ & _ & It) & _).
  destruct (valid_at_text _ _ V) as (ch & t & T).
  destruct (It _ T) as (_ & _ & Al).
  set (filled := LoginApp_autofill_demo app).
  assert (Ef : filled = with_status_var StatusAutofilled
                          (with_captcha_var (ch :: t) app)).
  { unfold filled, LoginApp_autofill_demo, stored. now rewrite T. }
  assert (M : str_eqb (upper (strip (captcha_var filled)))
                      (upper (stored (captcha filled))) = true).
  { rewrite Ef. cbn [captcha_var captcha with_status_var with_captcha_var].
    unfold stored. rewrite T, (strip_generated Al). now apply str_eqb_eq. }
  assert (F' : fields_filled filled = true) by (rewrite Ef; exact F).
  assert (V' : valid_at now_verify (captcha filled) = true)
    by (rewrite Ef; exact V).
  assert (U : username_var filled = username_var app) by now rewrite Ef.
  assert (P : password_var filled = password_var app) by now rewrite Ef.
  assert (D : dialogs filled = dialogs app) by now rewrite Ef.
  assert (A : login_accepts now_verify filled
              = credentials_ok (strip (username_var app)) (password_var app)).
  { unfold login_accepts, captcha_passes.
    now rewrite F', V', M, U, P, Enc. }
  destruct (on_login_outcome now_verify now_create g filled)
    as [(F2 & _) | [(A2 & E) | [(X & _) | (_ & A2 & _ & t' & h & _ & E)]]].
  - congruence.
  - rewrite E. eexists _, _. split; [reflexivity|].
    cbn [dialogs]. now rewrite <- A, A2, U, D.
  - unfold login_raises in X. rewrite P, Enc, andb_false_r in X.
    discriminate.
  - rewrite E. eexists _, _. split; [reflexivity|].
    cbn [dialogs]. rewrite <- A, A2, D. unfold refusal.
    now rewrite V', M.
Qed.

(** X18. Only the two demo accounts get in: when the handler shows "Login
    successful", the stripped username is exactly [admin] or [user]
    (letter case counts), and the digest of the password as typed (not
    stripped) equals the stored digest of that account. *)
Theorem only_demo_users_log_in
    (now_verify now_create : Q) (g g' : Rng) (app app' : LoginApp)
    (u : str) :
  LoginApp_on_login now_verify now_create g app = Ok (g', app') ->
  dialogs app' = LoginSuccessful u :: dialogs app ->
  u = strip (username_var app)
  /\ ((u = py "admin"
       /\ sha256_hexdigest (password_var app)
          = sha256_hexdigest (py "Password123"))
      \/ (u = py "user"
          /\ sha256_hexdigest (password_var app)
             = sha256_hexdigest (py "qwertyUIOP1"))).
Proof.
  intros E D.
  destruct (on_login_outcome now_verify now_create g app)
    as [(_ & E') | [(A & E') | [(_ & E') | (_ & _ & _ & t & h & _ & E')]]];
    rewrite E in E'; try discriminate E'; injection E' as _ ->;
    cbn [dialogs show] in D.
  - discriminate D.
  - injection D as <-. split; [reflexivity|].
    unfold login_accepts in A. apply andb_true_iff in A as [_ C].
    unfold credentials_ok, DEMO_USERS in C. cbn [dict_get] in C.
    destruct (str_eqb (strip (username_var app)) (py "admin")) eqn:Ua.
    + apply str_eqb_eq in Ua. apply andb_true_iff in C as [_ C].
      apply str_eqb_eq in C. left. split; [exact Ua|now symmetry].
    + destruct (str_eqb (strip (username_var app)) (py "user")) eqn:Uu.
      * apply str_eqb_eq in Uu. apply andb_true_iff in C as [_ C].
        apply str_eqb_eq in C. right. split; [exact Uu|now symmetry].
      * discriminate.
  - injection D as D. now apply refusal_not_success in D.
Qed.

End Captcha.

(** * The statements on a complete program

    The stand-in renderer and digest close the development; the generator
    draws 0 every time, so every created text is ["AAAAA"]. *)

(** After [create] at reading 1000 and a successful login of [admin] one
    second later, the session has lost its text and kept image and time
    stamp. *)
Lemma consumed_session_reachable :
  reachable blank_render plain_digest
    {| text := None;
       image := Some (mkCanvas 260 90);
       created_at := Some 1000%Q |}.
Proof.
  apply reach_call
    with (c := CallLogin (py "admin") (py "Password123") (py "aaaaa")
                 1001%Q 1001%Q (const_rng 0))
         (s := {| text := Some (py "AAAAA");
                  image := Some (mkCanvas 260 90);
                  created_at := Some 1000%Q |}).
  - apply reach_call with (c := CallCreate 1000%Q (const_rng 0))
                          (s := init Canvas).
    + apply reach_init.
    + reflexivity.
  - reflexivity.
Defined.

(** C5 fails as stated: the session left by a successful login is
    reachable, and there the text is unset while image and time stamp are
    set. *)
Lemma consumed_session_not_all_or_nothing :
  reachable blank_render plain_digest
    {| text := None;
       image := Some (mkCanvas 260 90);
       created_at := Some 1000%Q |}
  /\ ~ all_or_nothing
         {| text := None;
            image := Some (mkCanvas 260 90);
            created_at := Some 1000%Q |}.
Proof.
  split; [exact consumed_session_reachable|].
  unfold all_or_nothing. simpl.
  intros [(_ & H & _) | (H & _)]; [discriminate|now apply H].
Qed.

Lemma reachable_session_inv_witness :
  reachable blank_render plain_digest
    {| text := None;
       image := Some (mkCanvas 260 90);
       created_at := Some 1000%Q |}
  /\ session_inv
       {| text := None;
          image := Some (mkCanvas 260 90);
          created_at := Some 1000%Q |}.
Proof.
  split; [exact consumed_session_reachable|].
  apply (@reachable_session_inv Canvas blank_render plain_digest).
  exact consumed_session_reachable.
Defined.

(** C8 fails as stated: two consecutive [create] calls that both read 1000
    from the clock leave the same time stamp. *)
Lemma same_reading_same_stamp :
  exists (g1 g2 : Rng) (s1 s2 : CaptchaSession Canvas),
    create blank_render 1000%Q (const_rng 0) (init Canvas) = Ok (g1, s1)
    /\ create blank_render 1000%Q g1 s1 = Ok (g2, s2)
    /\ same_stamp (created_at s2) (created_at s1).
Proof.
  do 4 eexists. split; [reflexivity|]. split; reflexivity.
Qed.

(** C2 fails as stated: with ["ABSSQ"] stored, the four-character attempt
    a, b, sharp s, q is accepted, because the sharp s (223) has the
    upper-case form SS; it does not equal the five-character text up to
    letter case. *)
Lemma sharp_s_attempt_accepted :
  let s := {| text := Some (py "ABSSQ");
              image := Some (mkCanvas 260 90);
              created_at := Some 1000%Q |} in
  is_valid 1010%Q s = Ok (true, s)
  /\ text s = Some (py "ABSSQ")
  /\ verify 1010%Q [97; 98; 223; 113]%N s = Ok ((true, "ok"%string), s)
  /\ ~ (exists core,
          trimmed [97; 98; 223; 113]%N core
          /\ eq_ignore_case core (py "ABSSQ")).
Proof.
  intros s. split; [reflexivity|]. split; [reflexivity|].
  split; [vm_compute; reflexivity|].
  intros (core & Htr & H). apply strip_trimmed in Htr. subst core.
  apply Forall2_length in H. vm_compute in H. discriminate H.
Qed.

Lemma verify_ok_iff_trimmed_caseless_witness :
  let s := {| text := Some (py "AB3FQ");
              image := Some (mkCanvas 260 90);
              created_at := Some 1000%Q |} in
  is_valid 1010%Q s = Ok (true, s)
  /\ text s = Some (py "AB3FQ")
  /\ verify 1010%Q (py " ab3fq ") s = Ok ((true, "ok"%string), s)
  /\ verify 1010%Q (py "AB3FQ") s = Ok ((true, "ok"%string), s).
Proof.
  intros s. split; [reflexivity|]. split; [reflexivity|].
  apply (@verify_ok_iff_trimmed_caseless Canvas 1010%Q (py " ab3fq ")
           (py "AB3FQ") s); reflexivity.
Defined.

Lemma verify_within_ttl_after_create_witness :
  ~ (1000 == 0)%Q
  /\ exists (g' : Rng) (s1 : CaptchaSession Canvas) (txt : str),
       create blank_render 1000%Q (const_rng 0) (init Canvas) = Ok (g', s1)
       /\ text s1 = Some txt
       /\ created_at s1 = Some 1000%Q
       /\ (forall t : Q, (t - 1000 <= 120)%Q ->
             verify t txt s1 = Ok ((true, "ok"%string), s1))
       /\ (forall t : Q, (120 < t - 1000)%Q ->
             verify t txt s1 = Ok ((false, "expired"%string), s1))
       /\ verify (1000 + 119)%Q txt s1 = Ok ((true, "ok"%string), s1)
       /\ verify (1000 + 120)%Q txt s1 = Ok ((true, "ok"%string), s1)
       /\ verify (1000 + 121)%Q txt s1 = Ok ((false, "expired"%string), s1).
Proof.
  assert (H : ~ (1000 == 0)%Q) by discriminate.
  split; [exact H|].
  exact (@verify_within_ttl_after_create Canvas blank_render 1000%Q
           (const_rng 0) (init Canvas) H).
Defined.

Lemma no_text_is_expired_witness :
  let s := {| text := None;
              image := Some (mkCanvas 260 90);
              created_at := Some 1000%Q |} in
  (text s = None \/ text s = Some [])
  /\ is_valid 1001%Q s = Ok (false, s)
  /\ verify 1001%Q (py "AAAAA") s = Ok ((false, "expired"%string), s).
Proof.
  intros s. split; [left; reflexivity|].
  apply (@no_text_is_expired Canvas 1001%Q (py "AAAAA") s).
  left; reflexivity.
Defined.

Lemma future_stamp_is_valid_witness :
  let s := {| text := Some (py "AB3FQ");
              image := Some (mkCanvas 260 90);
              created_at := Some 1000%Q |} in
  has_challenge s = true
  /\ created_at s = Some 1000%Q
  /\ (400 < 1000)%Q
  /\ is_valid 400%Q s = Ok (true, s).
Proof.
  intros s. split; [reflexivity|]. split; [reflexivity|].
  split; [reflexivity|].
  apply (@future_stamp_is_valid Canvas 400%Q 1000%Q s); reflexivity.
Defined.

(** ** The further properties on a complete program *)

Lemma expired_stays_expired_witness :
  let s := {| text := Some (py "K7XWM");
              image := Some (mkCanvas 260 90);
              created_at := Some 1000%Q |} in
  is_valid 1121%Q s = Ok (false, s)
  /\ (1121 <= 1130)%Q
  /\ is_valid 1130%Q s = Ok (false, s)
  /\ verify 1130%Q (py "k7xwm") s = Ok ((false, "expired"%string), s).
Proof.
  intros s. split; [reflexivity|]. split; [discriminate|].
  apply (@expired_stays_expired Canvas 1121%Q 1130%Q (py "k7xwm") s).
  - reflexivity.
  - discriminate.
Defined.

Lemma verify_ignores_padding_and_case_witness :
  let s := {| text := Some (py "AB3FQ");
              image := Some (mkCanvas 260 90);
              created_at := Some 1000%Q |} in
  whitespace (py " ") /\ whitespace (py "  ")
  /\ eq_ignore_case (py "ab3fq") (py "Ab3Fq")
  /\ verify 1010%Q (py " " ++ py "ab3fq" ++ py "  ") s
     = verify 1010%Q (py "Ab3Fq") s
  /\ verify 1010%Q (strip (py "Ab3Fq")) s = verify 1010%Q (py "Ab3Fq") s.
Proof.
  intros s.
  assert (W1 : whitespace (py " ")) by (repeat constructor).
  assert (W2 : whitespace (py "  ")) by (repeat constructor).
  assert (C : eq_ignore_case (py "ab3fq") (py "Ab3Fq"))
    by (apply upper_eq_ignore_case; reflexivity).
  split; [exact W1|]. split; [exact W2|]. split; [exact C|].
  exact (@verify_ignores_padding_and_case Canvas 1010%Q (py " ") (py "ab3fq")
           (py "  ") (py "Ab3Fq") s W1 W2 C).
Defined.

(** Font metrics for the examples: every character 20 wide and 30 high. *)
Lemma render_draws_never_fail_witness :
  (1 <= 260)%Z /\ (1 <= 90)%Z
  /\ exists (ops : list DrawOp) (g' : Rng),
       render_captcha_image_ops
         (fun s => (0, 0, 20 * Z.of_nat (List.length s), 30)%Z)
         (py "K7XWM") 260 90 LINE_NOISE DOT_NOISE (const_rng 7)
       = Some (ops, g').
Proof.
  split; [discriminate|]. split; [discriminate|].
  apply render_draws_never_fail; discriminate.
Defined.

Lemma render_raises_without_pixels_witness :
  (0 <= 0 \/ 90 <= 0)%Z /\ 0 < DOT_NOISE
  /\ render_captcha_image_ops
       (fun s => (0, 0, 20 * Z.of_nat (List.length s), 30)%Z)
       (py "K7XWM") 0 90 LINE_NOISE DOT_NOISE (const_rng 7)
     = None.
Proof.
  assert (H : (0 <= 0 \/ 90 <= 0)%Z) by (left; discriminate).
  assert (D : 0 < DOT_NOISE) by (unfold DOT_NOISE; apply Nat.lt_0_succ).
  split; [exact H|]. split; [exact D|].
  exact (render_raises_without_pixels _ (py "K7XWM") LINE_NOISE
           (const_rng 7) H D).
Defined.

Lemma render_ops_within_witness :
  Forall (op_within 260 90)
    [NewImage 260 90;
     DrawLine (7, 7)%Z (7, 7)%Z (67, 67, 67)%Z 2;
     PasteChar 75%N (60, 90)%Z (20, 15)%Z (27, 27, 27)%Z
       (-225179981368524450 # 9007199254740992)%Q (110, 31)%Z;
     PasteChar 55%N (60, 90)%Z (20, 15)%Z (27, 27, 27)%Z
       (-225179981368524450 # 9007199254740992)%Q (130, 31)%Z;
     DrawPoint (7, 7)%Z (7, 7, 7)%Z;
     DrawPoint (7, 7)%Z (7, 7, 7)%Z;
     FilterSmooth; FilterSharpen].
Proof.
  apply (@render_ops_within
           (fun s => (0, 0, 20 * Z.of_nat (List.length s), 30)%Z)
           (py "K7") 260 90 1 2 (const_rng 7) (const_rng 7)).
  vm_compute. reflexivity.
Defined.

Lemma render_ops_layout_witness :
  exists lines chars dots : list DrawOp,
    [NewImage 260 90;
     DrawLine (7, 7)%Z (7, 7)%Z (67, 67, 67)%Z 2;
     PasteChar 75%N (60, 90)%Z (20, 15)%Z (27, 27, 27)%Z
       (-225179981368524450 # 9007199254740992)%Q (110, 31)%Z;
     PasteChar 55%N (60, 90)%Z (20, 15)%Z (27, 27, 27)%Z
       (-225179981368524450 # 9007199254740992)%Q (130, 31)%Z;
     DrawPoint (7, 7)%Z (7, 7, 7)%Z;
     DrawPoint (7, 7)%Z (7, 7, 7)%Z;
     FilterSmooth; FilterSharpen]
    = NewImage 260 90
      :: lines ++ chars ++ dots ++ [FilterSmooth; FilterSharpen]
    /\ List.length lines = 1 /\ forallb is_line lines = true
    /\ List.length chars = List.length (py "K7")
    /\ laid_out (fun s => (0, 0, 20 * Z.of_nat (List.length s), 30)%Z)
         (py "K7")
         (text_left (fun s => (0, 0, 20 * Z.of_nat (List.length s), 30)%Z)
            (py "K7") 260)
         (text_top (fun s => (0, 0, 20 * Z.of_nat (List.length s), 30)%Z)
            (py "K7") 90)
         chars
    /\ List.length dots = 2 /\ forallb is_point dots = true.
Proof.
  apply (@render_ops_layout
           (fun s => (0, 0, 20 * Z.of_nat (List.length s), 30)%Z)
           (py "K7") 260 90 1 2 (const_rng 7) (const_rng 7)).
  vm_compute. reflexivity.
Defined.

(** The window right after start-up at reading 1000. *)
Lemma started_window_reachable :
  app_reachable blank_render plain_digest
    (mkApp {| text := Some (py "AAAAA");
              image := Some (mkCanvas 260 90);
              created_at := Some 1000%Q |}
           [] [] [] StatusRefreshed (Some (mkCanvas 260 90)) []).
Proof.
  apply app_start with (now := 1000%Q) (g := const_rng 0) (g' := const_rng 0).
  vm_compute. reflexivity.
Defined.

(** The same window with username and password typed in. *)
Lemma typed_window_reachable :
  app_reachable blank_render plain_digest
    (mkApp {| text := Some (py "AAAAA");
              image := Some (mkCanvas 260 90);
              created_at := Some 1000%Q |}
           (py " admin ") (py "Password123") [] StatusRefreshed
           (Some (mkCanvas 260 90)) []).
Proof.
  eapply app_event with (e := TypePassword (py "Password123")).
  - eapply app_event with (e := TypeUsername (py " admin ")).
    + exact started_window_reachable.
    + reflexivity.
  - reflexivity.
Defined.

Lemma app_reachable_inv_witness :
  app_inv
    (mkApp {| text := Some (py "AAAAA");
              image := Some (mkCanvas 260 90);
              created_at := Some 1000%Q |}
           (py " admin ") (py "Password123") [] StatusRefreshed
           (Some (mkCanvas 260 90)) []).
Proof.
  apply (@app_reachable_inv Canvas blank_render plain_digest).
  exact typed_window_reachable.
Defined.

Lemma login_with_missing_fields_witness :
  let app := mkApp {| text := Some (py "AAAAA");
                      image := Some (mkCanvas 260 90);
                      created_at := Some 1000%Q |}
                   (py "   ") (py "Password123") (py "aaaaa")
                   StatusRefreshed (Some (mkCanvas 260 90)) [] in
  fields_filled app = false
  /\ LoginApp_on_login blank_render plain_digest 1001%Q 1002%Q
       (const_rng 0) app
     = Ok (const_rng 0,
           mkApp (captcha app) (username_var app) (password_var app)
                 (captcha_var app) (status_var app)
                 (_current_captcha_img app) (MissingFields :: dialogs app)).
Proof.
  intros app. split; [reflexivity|].
  apply (@login_with_missing_fields Canvas blank_render plain_digest).
  reflexivity.
Defined.

Lemma refused_login_rotates_witness :
  let app := mkApp {| text := Some (py "AAAAA");
                      image := Some (mkCanvas 260 90);
                      created_at := Some 1000%Q |}
                   (py "admin") (py "guess") (py "aaaaa")
                   StatusRefreshed (Some (mkCanvas 260 90)) [] in
  fields_filled app = true
  /\ login_accepts plain_digest 1001%Q app = false
  /\ login_raises 1001%Q app = false
  /\ exists (g' : Rng) (app' : LoginApp Canvas) (t : str),
       LoginApp_on_login blank_render plain_digest 1001%Q 1002%Q
         (const_rng 3) app = Ok (g', app')
       /\ text (captcha app') = Some t /\ List.length t = 5
       /\ created_at (captcha app') = Some 1002%Q
       /\ _current_captcha_img app' = image (captcha app')
       /\ captcha_var app' = []
       /\ password_var app' = password_var app
       /\ username_var app' = username_var app
       /\ status_var app' = StatusRefreshed
       /\ dialogs app' = refusal 1001%Q app :: dialogs app.
Proof.
  intros app. split; [reflexivity|]. split; [reflexivity|].
  split; [reflexivity|].
  apply (@refused_login_rotates Canvas blank_render plain_digest);
    reflexivity.
Defined.

Lemma consumed_captcha_cannot_be_reused_witness :
  let app := mkApp {| text := Some (py "AAAAA");
                      image := Some (mkCanvas 260 90);
                      created_at := Some 1000%Q |}
                   (py " admin ") (py "Password123") (py "aaaaa")
                   StatusRefreshed (Some (mkCanvas 260 90)) [] in
  let app1 := mkApp {| text := None;
                       image := Some (mkCanvas 260 90);
                       created_at := Some 1000%Q |}
                    (py " admin ") [] (py "aaaaa")
                    (StatusWelcome (py "admin")) (Some (mkCanvas 260 90))
                    [LoginSuccessful (py "admin")] in
  exists (g3 : Rng) (app2 : LoginApp Canvas),
    LoginApp_on_login blank_render plain_digest 1002%Q 1003%Q (const_rng 0)
      (with_captcha_var (py "AAAAA")
         (with_password_var (py "Password123")
            (with_username_var (py "admin") app1)))
    = Ok (g3, app2)
    /\ dialogs app2 = CaptchaExpired :: dialogs app1
    /\ created_at (captcha app2) = Some 1003%Q
    /\ text (captcha app2) <> None.
Proof.
  intros app app1.
  apply (@consumed_captcha_cannot_be_reused Canvas blank_render plain_digest
           1001%Q 1002%Q 1002%Q 1003%Q (const_rng 0) (const_rng 0)
           (const_rng 0) app app1 (py "admin") (py "Password123")
           (py "AAAAA")).
  - vm_compute. reflexivity.
  - reflexivity.
  - reflexivity.
  - reflexivity.
Defined.

Lemma autofill_passes_captcha_witness :
  let app := mkApp {| text := Some (py "AAAAA");
                      image := Some (mkCanvas 260 90);
                      created_at := Some 1000%Q |}
                   (py " admin ") (py "Password123") []
                   StatusRefreshed (Some (mkCanvas 260 90)) [] in
  valid_at 1001%Q (captcha app) = true
  /\ fields_filled app = true
  /\ encodable (password_var app) = true
  /\ exists (g' : Rng) (app' : LoginApp Canvas),
       LoginApp_on_login blank_render plain_digest 1001%Q 1002%Q
         (const_rng 0) (LoginApp_autofill_demo app) = Ok (g', app')
       /\ dialogs app'
          = (if credentials_ok plain_digest (strip (username_var app))
                  (password_var app)
             then LoginSuccessful (strip (username_var app))
             else LoginFailed) :: dialogs app.
Proof.
  intros app. split; [reflexivity|]. split; [reflexivity|].
  split; [reflexivity|].
  apply (@autofill_passes_captcha Canvas blank_render plain_digest).
  - exact typed_window_reachable.
  - reflexivity.
  - reflexivity.
  - reflexivity.
Defined.

Lemma only_demo_users_log_in_witness :
  let app := mkApp {| text := Some (py "AAAAA");
                      image := Some (mkCanvas 260 90);
                      created_at := Some 1000%Q |}
                   (py " admin ") (py "Password123") (py "aaaaa")
                   StatusRefreshed (Some (mkCanvas 260 90)) [] in
  py "admin" = strip (username_var app)
  /\ ((py "admin" = py "admin"
       /\ plain_digest (password_var app) = plain_digest (py "Password123"))
      \/ (py "admin" = py "user"
          /\ plain_digest (password_var app)
             = plain_digest (py "qwertyUIOP1"))).
Proof.
  intros app.
  apply (@only_demo_users_log_in Canvas blank_render plain_digest
           1001%Q 1002%Q (const_rng 0) (const_rng 0) app
           (mkApp {| text := None;
                     image := Some (mkCanvas 260 90);
                     created_at := Some 1000%Q |}
                  (py " admin ") [] (py "aaaaa")
                  (StatusWelcome (py "admin")) (Some (mkCanvas 260 90))
                  [LoginSuccessful (py "admin")])
           (py "admin")).
  - vm_compute. reflexivity.
  - reflexivity.
Defined.

(** A password with a lone surrogate stops the login at the digest, after
    the CAPTCHA was accepted. *)
Example surrogate_password_raises :
  LoginApp_on_login blank_render plain_digest 1001%Q 1002%Q (const_rng 0)
    (mkApp {| text := Some (py "AAAAA");
              image := Some (mkCanvas 260 90);
              created_at := Some 1000%Q |}
           (py "admin") [55296]%N (py "aaaaa")
           StatusRefreshed (Some (mkCanvas 260 90)) [])
  = Raise UnicodeEncodeError.
Proof. vm_compute. reflexivity. Qed.
